(** * mouse-tracker: a shallow embedding of [src/main.py] (tracker_cli.py)

  The program polls the cursor position and the rectangles of one Tk
  window on a timer and prints one formatted line per sample.  The
  embedding keeps the program's shape:

  - Python values: [int] is [Z], [float] is the kernel's binary64
    [float], [str] is [string], [None]-or-int is [option Z];
  - Python exceptions: a state-and-exception monad [M], in which the
    state survives a raise, with [try_except] for [try]/[except];
  - the operating system: a record [OS] of the Win32 entry points the
    program calls through ctypes, each taking the structure passed by
    reference and returning the BOOL together with the structure as the
    call left it;
  - the process: a [World] (the two output streams, the pending Tk timer
    callbacks, the log of OS calls) and the [TrackerApp] object;
  - start-up: [Dpi.enable_dpi_awareness] over the three DPI entry points,
    [Program.create_window] over the Tk calls that build the window, and
    [Program.program] for [main] from its first line on.

  Left out: the prototypes bound at import (lines 12-50), and exits that
  arrive from outside the code that runs (the SIGINT handler's
  [sys.exit]).  Tk is taken to accept every delay given to
  [root.after]. *)

From Stdlib Require Import ZArith NArith List String Ascii Bool Lia.
From Stdlib Require Import Floats.PrimFloat Floats.FloatOps Floats.SpecFloat.
From Stdlib Require Import Floats.FloatAxioms.
Import ListNotations.

Set Warnings "-inexact-float".
Open Scope Z_scope.

Infix "+++" := String.append (at level 60, right associativity).

(* ================================================================= *)
(** ** Python strings and integer formatting *)

Module PyStr.

(** [c * n] for a one-character string. *)
Fixpoint replicate (n : nat) (c : ascii) : string :=
  match n with
  | O => EmptyString
  | S k => String c (replicate k c)
  end.

(** [s.rjust(width)], the padding of a format spec with a width and
    the default right alignment of numbers: a string already as long as
    the width is left as it is. *)
Definition rjust (width : nat) (s : string) : string :=
  replicate (width - String.length s) " " +++ s.

Definition digit_char (d : N) : ascii :=
  ascii_of_N (48 + d).

(** The decimal digits of [n], most significant first; [fuel] bounds
    the number of divisions by ten. *)
Fixpoint digits_fuel (fuel : nat) (n : N) (acc : string) : string :=
  let acc' := String (digit_char (n mod 10)) acc in
  match fuel with
  | O => acc'
  | S f => if (n / 10 =? 0)%N then acc' else digits_fuel f (n / 10)%N acc'
  end.

Definition str_N (n : N) : string :=
  digits_fuel (N.to_nat (N.log2 n)) n EmptyString.

(** [str(n)] for a Python int. *)
Definition str_Z (n : Z) : string :=
  if n <? 0 then String "-" (str_N (Z.abs_N n)) else str_N (Z.abs_N n).

(** [format(n, "<width>d")]. *)
Definition format_d (width : nat) (n : Z) : string :=
  rjust width (str_Z n).

(** Exactly [k] decimal digits of [n], most significant first (the
    digits of [n mod 10^k], zero-padded on the left). *)
Fixpoint fixed_digits (k : nat) (n : N) : string :=
  match k with
  | O => EmptyString
  | S k' => fixed_digits k' (n / 10)%N +++ String (digit_char (n mod 10)) EmptyString
  end.

Definition is_digit (c : ascii) : bool :=
  let n := N_of_ascii c in ((48 <=? n) && (n <=? 57))%N.

Fixpoint all_chars (p : ascii -> bool) (s : string) : bool :=
  match s with
  | EmptyString => true
  | String c s' => p c && all_chars p s'
  end.

Definition is_space (c : ascii) : bool := Ascii.eqb c " ".

(** The value of a string of decimal digits. *)
Fixpoint value_digits (acc : N) (s : string) : N :=
  match s with
  | EmptyString => acc
  | String c s' => value_digits (10 * acc + (N_of_ascii c - 48))%N s'
  end.

End PyStr.

(* ================================================================= *)
(** ** Python floats: [float(str)], [max], [int(float)], [format(x, "w.pf")] *)

Module PyFloat.
Import PyStr.

(** Rounding of the non-negative rational [n / d] to the nearest
    integer, ties to even. *)
Definition round_half_even (n d : Z) : Z :=
  let q := n / d in
  let r := n mod d in
  if (2 * r <? d) then q
  else if (2 * r =? d) then (if Z.even q then q else q + 1)
  else q + 1.

(** The binary64 number nearest to [n / d] (ties to even), for [0 <= n]
    and [0 < d]: the exponent [e] of the unit in the last place is chosen
    so that the quotient has 53 bits, and is never below that of the
    subnormal numbers. *)
Definition nearest_binary64 (sign : bool) (n d : Z) : float :=
  if n =? 0 then (if sign then neg_zero else zero)
  else
    let l := Z.log2 n - Z.log2 d in
    let fl := if (if 0 <=? l then d * 2 ^ l <=? n else d <=? n * 2 ^ (- l))
              then l else l - 1 in
    let e := Z.max (-1074) (fl - 52) in
    let q := if 0 <=? e then round_half_even n (d * 2 ^ e)
             else round_half_even (n * 2 ^ (- e)) d in
    match q with
    | Zpos m => SF2Prim (S754_finite sign m e)
    | _ => if sign then neg_zero else zero
    end.

(** *** [float(s)] for a string [s] *)

(** The white space [float] strips from an ASCII string: the space and
    the characters 9 to 13 (tab, line feed, vertical tab, form feed,
    carriage return). *)
Definition is_py_space (c : ascii) : bool :=
  let n := N_of_ascii c in
  (((9 <=? n) && (n <=? 13)) || (n =? 32))%N.

Fixpoint lstrip (s : list ascii) : list ascii :=
  match s with
  | c :: s' => if is_py_space c then lstrip s' else s
  | [] => []
  end.

Definition strip (s : list ascii) : list ascii :=
  rev (lstrip (rev (lstrip s))).

Definition lower (c : ascii) : ascii :=
  let n := N_of_ascii c in
  if ((65 <=? n) && (n <=? 90))%N then ascii_of_N (n + 32) else c.

Definition digit_val (c : ascii) : Z := Z.of_N (N_of_ascii c) - 48.

(** A [digitpart]: digits, with single underscores allowed between two
    digits.  Returns the value accumulated on [acc], the number of digits
    read and the rest of the input; [None] when no digit starts the
    input. *)
Fixpoint digitpart_rest (acc : Z) (cnt : Z) (s : list ascii)
  : Z * Z * list ascii :=
  match s with
  | c :: s' =>
      if is_digit c then digitpart_rest (10 * acc + digit_val c) (cnt + 1) s'
      else if Ascii.eqb c "_" then
        match s' with
        | c' :: s'' =>
            if is_digit c'
            then digitpart_rest (10 * acc + digit_val c') (cnt + 1) s''
            else (acc, cnt, s)
        | [] => (acc, cnt, s)
        end
      else (acc, cnt, s)
  | [] => (acc, cnt, [])
  end.

Definition digitpart (acc : Z) (s : list ascii)
  : option (Z * Z * list ascii) :=
  match s with
  | c :: s' =>
      if is_digit c then Some (digitpart_rest (10 * acc + digit_val c) 1 s')
      else None
  | [] => None
  end.

Definition sign_of (s : list ascii) : bool * list ascii :=
  match s with
  | c :: s' =>
      if Ascii.eqb c "-" then (true, s')
      else if Ascii.eqb c "+" then (false, s')
      else (false, s)
  | [] => (false, [])
  end.

(** The optional exponent: [Some (e, rest)], with [e = 0] and nothing
    read when there is no exponent; [None] when an [e] is followed by no
    digit. *)
Definition exponent (s : list ascii) : option (Z * list ascii) :=
  match s with
  | c :: s' =>
      if Ascii.eqb (lower c) "e" then
        let '(neg, s'') := sign_of s' in
        match digitpart 0 s'' with
        | Some (v, _, rest) => Some (if neg then - v else v, rest)
        | None => None
        end
      else Some (0, s)
  | [] => Some (0, [])
  end.

(** [number ::= [digitpart] "." digitpart | digitpart ["."]]: the value
    of all the digits read as one integer, and the number of digits after
    the point. *)
Definition number (s : list ascii) : option (Z * Z * list ascii) :=
  match digitpart 0 s with
  | Some (ip, _, rest) =>
      match rest with
      | c :: rest' =>
          if Ascii.eqb c "." then
            match digitpart ip rest' with
            | Some (v, nfrac, rest'') => Some (v, nfrac, rest'')
            | None => Some (ip, 0, rest')
            end
          else Some (ip, 0, rest)
      | [] => Some (ip, 0, [])
      end
  | None =>
      match s with
      | c :: rest' =>
          if Ascii.eqb c "." then digitpart 0 rest' else None
      | [] => None
      end
  end.

Definition decimal_value (sign : bool) (mant : Z) (exp10 : Z) : float :=
  if 0 <=? exp10 then nearest_binary64 sign (mant * 10 ^ exp10) 1
  else nearest_binary64 sign mant (10 ^ (- exp10)).

(** [float(s)], the builtin, on a string of ASCII characters (a string
    with other characters is refused here, though the builtin also reads
    the digits and spaces of other scripts): white space is stripped,
    then come an optional sign and [inf], [infinity], [nan] (in any case)
    or a decimal number with an optional exponent, converted to the
    nearest binary64.  [None] stands for the [ValueError] the builtin
    raises. *)
Definition float_of_str (s : string) : option float :=
  let cs := strip (list_ascii_of_string s) in
  let '(neg, body) := sign_of cs in
  let name := string_of_list_ascii (map lower body) in
  if String.eqb name "inf" || String.eqb name "infinity"
  then Some (if neg then neg_infinity else infinity)
  else if String.eqb name "nan" then Some nan
  else
    match number body with
    | Some (mant, nfrac, rest) =>
        match exponent rest with
        | Some (e, []) => Some (decimal_value neg mant (e - nfrac))
        | _ => None
        end
    | None => None
    end.

(** *** [max(a, b)]: the first argument stays unless the second is
    greater, so that a NaN as second argument is dropped. *)
Definition py_max (a b : float) : float :=
  if PrimFloat.ltb a b then b else a.

(** *** [int(x)]: truncation towards zero; [None] for what raises. *)
Inductive int_result : Type :=
| IntOk (z : Z)
| IntOverflow     (* OverflowError: cannot convert float infinity to integer *)
| IntNaN.         (* ValueError: cannot convert float NaN to integer *)

Definition int_of_float (x : float) : int_result :=
  match Prim2SF x with
  | S754_nan => IntNaN
  | S754_infinity _ => IntOverflow
  | S754_zero _ => IntOk 0
  | S754_finite s m e =>
      let a := if 0 <=? e then Zpos m * 2 ^ e else Zpos m / 2 ^ (- e) in
      IntOk (if s then - a else a)
  end.

(** *** [float(n)] for a Python int that fits 63 bits. *)
Definition float_of_Z (n : Z) : float :=
  if n <? 0 then PrimFloat.opp (of_uint63 (Uint63Axioms.of_Z (- n)))
  else of_uint63 (Uint63Axioms.of_Z n).

Definition is_finite (x : float) : bool :=
  match Prim2SF x with
  | S754_zero _ | S754_finite _ _ _ => true
  | _ => false
  end.

(** *** [format(x, ".<prec>f")]: the decimal expansion of the exact
    binary value, rounded to [prec] places, ties to even. *)
Definition sign_str (s : bool) : string :=
  if s then String "-" EmptyString else EmptyString.

Definition fixed_point (prec : nat) (s : bool) (scaled : Z) : string :=
  let p := 10 ^ Z.of_nat prec in
  sign_str s +++ str_N (Z.to_N (scaled / p))
    +++ (match prec with
         | O => EmptyString
         | _ => String "." (fixed_digits prec (Z.to_N (scaled mod p)))
         end).

Definition sign_bit (x : float) : bool :=
  match Prim2SF x with
  | S754_zero s | S754_infinity s | S754_finite s _ _ => s
  | S754_nan => false
  end.

(** [|x| * 10^prec] rounded to an integer, ties to even, for a finite
    [x]: the digits that [format(x, ".<prec>f")] prints. *)
Definition scaled_abs (prec : nat) (x : float) : Z :=
  let p := 10 ^ Z.of_nat prec in
  match Prim2SF x with
  | S754_finite _ m e =>
      if 0 <=? e then Zpos m * 2 ^ e * p
      else round_half_even (Zpos m * p) (2 ^ (- e))
  | _ => 0
  end.

Definition repr_f (prec : nat) (x : float) : string :=
  match Prim2SF x with
  | S754_nan => "nan"%string
  | S754_infinity s => sign_str s +++ "inf"
  | _ => fixed_point prec (sign_bit x) (scaled_abs prec x)
  end.

(** [format(x, "<width>.<prec>f")]. *)
Definition format_f (width prec : nat) (x : float) : string :=
  rjust width (repr_f prec x).

End PyFloat.

(* ================================================================= *)
(** ** Exceptions and effects *)

Module Py.

(** The exception classes the program can meet; all of them derive from
    [Exception].  The argument is [str(e)]. *)
Inductive exn : Type :=
| OSError (msg : string)
| ValueError (msg : string)
| OverflowError (msg : string)
| AttributeError (msg : string)
| TclError (msg : string).

Definition str_exn (e : exn) : string :=
  match e with
  | OSError m | ValueError m | OverflowError m
  | AttributeError m | TclError m => m
  end.

(** The name of the class, as a traceback prints it. *)
Definition class_name (e : exn) : string :=
  match e with
  | OSError _ => "OSError"
  | ValueError _ => "ValueError"
  | OverflowError _ => "OverflowError"
  | AttributeError _ => "AttributeError"
  | TclError _ => "_tkinter.TclError"
  end.

(** [except Exception], [except OSError], [except ValueError]. *)
Definition is_Exception (e : exn) : bool := true.
Definition is_OSError (e : exn) : bool :=
  match e with OSError _ => true | _ => false end.
Definition is_ValueError (e : exn) : bool :=
  match e with ValueError _ => true | _ => false end.

Inductive result (A : Type) : Type :=
| Ok (a : A)
| Raise (e : exn).
Arguments Ok {A} a.
Arguments Raise {A} e.

(** A computation over a state [S] that returns or raises; what it did
    to the state before raising stays done. *)
Definition M (S A : Type) : Type := S -> result A * S.

Definition ret {S A} (a : A) : M S A := fun s => (Ok a, s).

Definition bind {S A B} (m : M S A) (k : A -> M S B) : M S B :=
  fun s =>
    match m s with
    | (Ok a, s') => k a s'
    | (Raise e, s') => (Raise e, s')
    end.

Definition raise {S A} (e : exn) : M S A := fun s => (Raise e, s).

Definition get {S} : M S S := fun s => (Ok s, s).
Definition modify {S} (f : S -> S) : M S unit := fun s => (Ok tt, f s).

(** [try: body / except <class> as e: handler e]. *)
Definition try_except {S A} (body : M S A) (catches : exn -> bool)
           (handler : exn -> M S A) : M S A :=
  fun s =>
    match body s with
    | (Ok a, s') => (Ok a, s')
    | (Raise e, s') => if catches e then handler e s' else (Raise e, s')
    end.

(** A value the environment hands back, or the exception it raises. *)
Definition of_result {S A} (r : result A) : M S A := fun s => (r, s).

(** Running a computation on a component of a larger state. *)
Definition lift {S T A} (proj : T -> S) (inj : S -> T -> T) (m : M S A)
  : M T A :=
  fun t => let '(r, s') := m (proj t) in (r, inj s' t).

Declare Scope py_scope.
Delimit Scope py_scope with py.
Notation "x <- m ;; k" := (bind m (fun x => k))
  (at level 61, m at next level, right associativity) : py_scope.
Notation "' pat <- m ;; k" := (bind m (fun x => match x with pat => k end))
  (at level 61, pat pattern, m at next level, right associativity) : py_scope.
Notation "m ;; k" := (bind m (fun _ => k))
  (at level 61, right associativity) : py_scope.

End Py.

(* ================================================================= *)
(** ** The Win32 bindings and the OS query functions *)

Module Win32.
Import Py.
Local Open Scope py_scope.

(** A ctypes [LONG] field keeps the low 32 bits of what is stored in
    it, read back as a signed number. *)
Definition LONG (z : Z) : Z := (z + 2 ^ 31) mod 2 ^ 32 - 2 ^ 31.

Record POINT : Type := mkPOINT { x : Z; y : Z }.
Record RECT : Type := mkRECT { left : Z; top : Z; right : Z; bottom : Z }.

(** [POINT(x, y)] and [POINT()], [RECT()]. *)
Definition POINT_ (px py : Z) : POINT := mkPOINT (LONG px) (LONG py).
Definition RECT_0 : RECT := mkRECT 0 0 0 0.

Definition HWND : Type := Z.
Definition BOOL : Type := Z.

(** [not b] for a C [BOOL] read as a Python int. *)
Definition py_not (b : BOOL) : bool := (b =? 0).

(** What the operating system, the Tk window and the clock answer at
    one moment.  A function taking a structure returns the BOOL of the
    call and the structure as the call left it. *)
Record OS : Type := mkOS {
  GetCursorPos : POINT -> BOOL * POINT;
  GetWindowRect : HWND -> RECT -> BOOL * RECT;
  GetClientRect : HWND -> RECT -> BOOL * RECT;
  ClientToScreen : HWND -> POINT -> BOOL * POINT;
  ScreenToClient : HWND -> POINT -> BOOL * POINT;
  (** raises (an [AttributeError] where user32 has no such entry) or
      returns the UINT *)
  GetDpiForWindow : HWND -> result Z;
  (** [root.winfo_id()] *)
  winfo_id : result Z;
  (** [time.perf_counter()] *)
  perf_counter : float
}.

Inductive Call : Type :=
| CallGetCursorPos
| CallGetWindowRect (h : HWND)
| CallGetClientRect (h : HWND)
| CallClientToScreen (h : HWND) (p : POINT)
| CallScreenToClient (h : HWND) (p : POINT)
| CallGetDpiForWindow (h : HWND)
| CallWinfoId.

(** The process as the outside sees it: the lines printed on the two
    streams (oldest first), the delays in milliseconds of the pending
    [root.after] callbacks (all of them [_tick], oldest first), the OS
    queries made so far, and whether [root.quit()] was called. *)
Record World : Type := mkWorld {
  stdout : list string;
  stderr : list string;
  timers : list Z;
  calls : list Call;
  quit : bool
}.

Definition world0 : World := mkWorld [] [] [] [] false.

Definition print (line : string) : M World unit :=
  modify (fun w => mkWorld (stdout w ++ [line]) (stderr w) (timers w) (calls w) (quit w)).

Definition eprint (line : string) : M World unit :=
  modify (fun w => mkWorld (stdout w) (stderr w ++ [line]) (timers w) (calls w) (quit w)).

(** [root.after(ms, self._tick)]: one more callback pending. *)
Definition root_after (ms : Z) : M World unit :=
  modify (fun w => mkWorld (stdout w) (stderr w) (timers w ++ [ms]) (calls w) (quit w)).

(** [root.quit()] *)
Definition root_quit : M World unit :=
  modify (fun w => mkWorld (stdout w) (stderr w) (timers w) (calls w) true).

Definition call (c : Call) : M World unit :=
  modify (fun w => mkWorld (stdout w) (stderr w) (timers w) (calls w ++ [c]) (quit w)).

Definition get_cursor_pos (os : OS) : M World (Z * Z) :=
  let p := POINT_ 0 0 in
  call CallGetCursorPos ;;
  let '(ok, p) := GetCursorPos os p in
  if py_not ok then raise (OSError "GetCursorPos failed")
  else ret (x p, y p).

Definition get_window_rect (os : OS) (hwnd : Z) : M World (Z * Z * Z * Z) :=
  let r := RECT_0 in
  call (CallGetWindowRect hwnd) ;;
  let '(ok, r) := GetWindowRect os hwnd r in
  if py_not ok then raise (OSError "GetWindowRect failed")
  else ret (left r, top r, right r, bottom r).

Definition get_client_rect_screen (os : OS) (hwnd : Z)
  : M World (Z * Z * Z * Z) :=
  let rc := RECT_0 in
  call (CallGetClientRect hwnd) ;;
  let '(ok, rc) := GetClientRect os hwnd rc in
  if py_not ok then raise (OSError "GetClientRect failed")
  else
    (* client origin -> screen *)
    let pt := POINT_ 0 0 in
    call (CallClientToScreen hwnd pt) ;;
    let '(ok, pt) := ClientToScreen os hwnd pt in
    if py_not ok then raise (OSError "ClientToScreen failed")
    else
      let '(left_, top_) := (x pt, y pt) in
      let width := right rc - left rc in
      let height := bottom rc - top rc in
      ret (left_, top_, left_ + width, top_ + height).

Definition screen_to_client (os : OS) (hwnd : Z) (px py : Z)
  : M World (Z * Z) :=
  let p := POINT_ px py in
  call (CallScreenToClient hwnd p) ;;
  let '(ok, p) := ScreenToClient os hwnd p in
  if py_not ok then raise (OSError "ScreenToClient failed")
  else ret (x p, y p).

Definition get_window_dpi (os : OS) (hwnd : Z) : M World (option Z) :=
  try_except
    (call (CallGetDpiForWindow hwnd) ;;
     d <- of_result (GetDpiForWindow os hwnd) ;;
     ret (Some d))
    is_Exception
    (fun _ => ret None).

(** [int(self.root.winfo_id())] *)
Definition root_winfo_id (os : OS) : M World Z :=
  call CallWinfoId ;;
  of_result (winfo_id os).

End Win32.

(* ================================================================= *)
(** ** The application: [TrackerApp] and [main] *)

Module Tracker.
Import Py Win32 PyStr PyFloat.
Local Open Scope py_scope.

Record TrackerApp : Type := mkTrackerApp {
  interval : float;
  _stop : bool;             (* the threading.Event *)
  hwnd : option Z           (* None, or the int of winfo_id *)
}.

(** The process: the application object and the world around it. *)
Record State : Type := mkState { self : TrackerApp; world : World }.

Definition in_world {A} (m : M World A) : M State A :=
  lift world (fun w st => mkState (self st) w) m.

Definition set_hwnd (h : option Z) : M State unit :=
  modify (fun st =>
    mkState (mkTrackerApp (interval (self st)) (_stop (self st)) h) (world st)).

Definition set_stop : M State unit :=
  modify (fun st =>
    mkState (mkTrackerApp (interval (self st)) true (hwnd (self st))) (world st)).

(** Truth value of [self.hwnd]: [None] and [0] are false. *)
Definition truthy (h : option Z) : bool :=
  match h with
  | Some n => negb (n =? 0)
  | None => false
  end.

Definition hwnd_value (h : option Z) : Z :=
  match h with Some n => n | None => 0 end.

(** One sample: what a tick has gathered when it formats its line. *)
Record Sample : Type := mkSample {
  now : float;
  mx : Z; my : Z;
  wrect : Z * Z * Z * Z;
  crect : Z * Z * Z * Z;
  relx : Z; rely : Z
}.

(** The f-string of [_tick]. *)
Definition format_line (s : Sample) : string :=
  let '(w0, w1, w2, w3) := wrect s in
  let '(c0, c1, c2, c3) := crect s in
  "t=" +++ format_f 9 3 (now s) +++ "  "
  +++ "mouse=(" +++ format_d 5 (mx s) +++ "," +++ format_d 5 (my s) +++ ")  "
  +++ "win=[" +++ format_d 5 w0 +++ "," +++ format_d 5 w1 +++ ","
              +++ format_d 5 w2 +++ "," +++ format_d 5 w3 +++ "]  "
  +++ "client=[" +++ format_d 5 c0 +++ "," +++ format_d 5 c1 +++ ","
                 +++ format_d 5 c2 +++ "," +++ format_d 5 c3 +++ "]  "
  +++ "mouse_in_client=(" +++ format_d 5 (relx s) +++ ","
                          +++ format_d 5 (rely s) +++ ")".

(** [int(x)] as a computation. *)
Definition py_int (x : float) : M State Z :=
  match int_of_float x with
  | IntOk z => ret z
  | IntOverflow => raise (OverflowError "cannot convert float infinity to integer")
  | IntNaN => raise (ValueError "cannot convert float NaN to integer")
  end.

(** The body of the [try] of [_tick]. *)
Definition tick_body (os : OS) : M State unit :=
  (* Ensure we have HWND (sometimes not ready immediately) *)
  st <- get ;;
  (if negb (truthy (hwnd (self st)))
   then (h <- in_world (root_winfo_id os) ;; set_hwnd (Some h))
   else ret tt) ;;
  (* Gather positions *)
  '(mx, my) <- in_world (get_cursor_pos os) ;;
  st <- get ;;
  let h := hwnd (self st) in
  wrect <- (if truthy h then in_world (get_window_rect os (hwnd_value h))
            else ret (0, 0, 0, 0)) ;;
  crect <- (if truthy h then in_world (get_client_rect_screen os (hwnd_value h))
            else ret (0, 0, 0, 0)) ;;
  (* Mouse relative to client *)
  '(relx, rely) <-
    try_except
      (if truthy h then in_world (screen_to_client os (hwnd_value h) mx my)
       else ret (0, 0))
      is_OSError
      (fun _ => ret (0, 0)) ;;
  (* Format output *)
  let now := perf_counter os in
  let line := format_line (mkSample now mx my wrect crect relx rely) in
  in_world (print line).

(** [self.root.after(int(self.interval * 1000), self._tick)] *)
Definition reschedule : M State unit :=
  st <- get ;;
  ms <- py_int (PrimFloat.mul (interval (self st)) 1000) ;;
  in_world (root_after ms).

Definition _tick (os : OS) : M State unit :=
  st <- get ;;
  if _stop (self st) then ret tt
  else
    try_except (tick_body os) is_Exception
      (fun e => in_world (eprint ("[error] " +++ str_exn e))) ;;
    (* Reschedule *)
    reschedule.

Definition stop : M State unit :=
  set_stop ;;
  try_except (in_world root_quit) is_Exception (fun _ => ret tt).

Definition banner : string :=
  "Tracking started. Press Esc in the window or Ctrl+C in the console to quit.".

Definition dpi_line (dpi : Z) : string :=
  "Window DPI: " +++ str_Z dpi +++ "  (scale x"
  +++ format_f 0 2 (PrimFloat.div (float_of_Z dpi) 96) +++ ")".

(** [TrackerApp.__init__] for a window that has been created: the
    interval (line 118) and the constructor from the handle on (lines
    132-147).  The creation of the window between them (lines 122-130),
    which can raise, is [Program.create_window]; the whole constructor is
    [Program.TrackerApp_new]. *)
Definition __init__ (os : OS) (interval_sec : float) : M World TrackerApp :=
  let interval := py_max 0.01 interval_sec in
  (* HWND for this window *)
  h <- try_except (n <- root_winfo_id os ;; ret (Some n))
                  is_Exception (fun _ => ret None) ;;
  (* Print a header once *)
  print banner ;;
  (if truthy h then
     dpi <- get_window_dpi os (hwnd_value h) ;;
     if truthy dpi then print (dpi_line (hwnd_value dpi)) else ret tt
   else ret tt) ;;
  (* Schedule first tick *)
  root_after 0 ;;
  ret (mkTrackerApp interval false h).

Definition usage : string :=
  "Usage: python tracker_cli.py [interval_seconds]".

(** The start of [main]: the optional interval of the command line,
    then the construction of the application.  [argv] is [sys.argv];
    [float_] is the builtin [float] on strings, [None] standing for its
    [ValueError]. *)
Definition parse_interval_with (float_ : string -> option float)
           (argv : list string) : M World float :=
  let interval := 0.1%float in
  match argv with
  | _ :: arg :: _ =>
      try_except
        (match float_ arg with
         | Some v => ret v
         | None => raise (ValueError ("could not convert string to float: " +++ arg))
         end)
        is_ValueError
        (fun _ => eprint usage ;; ret interval)
  | _ => ret interval
  end.

Definition main_setup_with (float_ : string -> option float)
           (os : OS) (argv : list string) : M World TrackerApp :=
  interval <- parse_interval_with float_ argv ;;
  __init__ os interval.

(** The same with [float_of_str] for the builtin. *)
Definition parse_interval (argv : list string) : M World float :=
  parse_interval_with float_of_str argv.

Definition main_setup (os : OS) (argv : list string) : M World TrackerApp :=
  main_setup_with float_of_str os argv.

(** *** The event loop

    [root.mainloop()] dispatches events one at a time: a timer that is
    due runs [_tick] against the operating system of that moment, the
    Escape key runs [stop].  An exception that leaves a callback is
    reported by Tk on the error stream and the loop goes on. *)
Inductive event : Type :=
| Timer (os : OS)
| Escape.

(** Tk's report of an exception that left a callback: the heading and
    the last line of the traceback (the frames between them are not
    kept). *)
Definition report_callback_exception (e : exn) : M State unit :=
  in_world (eprint "Exception in Tkinter callback" ;;
            eprint (class_name e +++ ": " +++ str_exn e)).

Definition pop_timer : M State bool :=
  st <- get ;;
  match timers (world st) with
  | [] => ret false
  | _ :: rest =>
      in_world (modify (fun w =>
        mkWorld (stdout w) (stderr w) rest (calls w) (quit w))) ;;
      ret true
  end.

(** One timer event: the oldest pending callback, when there is one,
    is taken off the queue and run. *)
Definition fire (os : OS) : M State unit :=
  due <- pop_timer ;;
  if due
  then try_except (_tick os) is_Exception report_callback_exception
  else ret tt.

Definition dispatch (ev : event) : M State unit :=
  match ev with
  | Timer os => fire os
  | Escape => stop
  end.

(** [root.mainloop()] over the events that arrive; it returns once
    [root.quit()] has been called. *)
Fixpoint mainloop (evs : list event) : M State unit :=
  match evs with
  | [] => ret tt
  | ev :: evs' =>
      st <- get ;;
      if quit (world st) then ret tt
      else dispatch ev ;; mainloop evs'
  end.

(** The timer events alone, whether or not [quit] was called: what the
    stop flag by itself guarantees. *)
Fixpoint fire_all (oss : list OS) : M State unit :=
  match oss with
  | [] => ret tt
  | os :: oss' => fire os ;; fire_all oss'
  end.

Definition main (os : OS) (argv : list string) (evs : list event)
  : result unit * State :=
  match main_setup os argv world0 with
  | (Ok app, w) => mainloop evs (mkState app w)
  | (Raise e, w) => (Raise e, mkState (mkTrackerApp 0.1 false None) w)
  end.

End Tracker.

(* ================================================================= *)
(** ** Vocabulary of the specification *)

Module Spec.
Import Py Win32 PyStr PyFloat Tracker.

(** A natural number written in decimal the usual way: digits only, at
    least one, and no zero in front of another digit. *)
Definition canonical (s : string) : bool :=
  all_chars is_digit s
  && match s with
     | EmptyString => false
     | String _ EmptyString => true
     | String c _ => negb (Ascii.eqb c "0")
     end.

(** [f] is the integer [n] in a field of at least five characters:
    spaces, then a minus sign for a negative number, then the digits of
    [|n|], which read back as [|n|]; the spaces fill the field up to five
    characters and there is none when the number takes five or more. *)
Definition int_field (n : Z) (f : string) : Prop :=
  exists pad sgn digits,
    f = pad +++ sgn +++ digits
    /\ all_chars is_space pad = true
    /\ ((n < 0 /\ sgn = "-"%string) \/ (0 <= n /\ sgn = ""%string))
    /\ canonical digits = true
    /\ Z.of_N (value_digits 0 digits) = Z.abs n
    /\ String.length pad
       = (5 - (String.length sgn + String.length digits))%nat
    /\ (-9999 <= n <= 99999 -> String.length f = 5%nat).

(** [k] is the float [t] in thousandths, rounded to a nearest integer,
    and [neg] its sign: [| k - 1000 |t| | <= 1/2], on the exact binary
    value of [t]. *)
Definition nearest_thousandth (t : float) (neg : bool) (k : Z) : Prop :=
  match Prim2SF t with
  | S754_zero s => neg = s /\ k = 0
  | S754_finite s m e =>
      neg = s
      /\ if 0 <=? e then k = 1000 * (Zpos m * 2 ^ e)
         else 2 * Z.abs (k * 2 ^ (- e) - 1000 * Zpos m) <= 2 ^ (- e)
  | _ => False
  end.

(** [f] is the timestamp [t] in a field of at least nine characters:
    spaces, a minus sign for a negative time, the integer part, a point
    and exactly three decimal digits, which together read [|t|] to the
    nearest thousandth; the spaces fill the field up to nine characters,
    which is its width for every time from 0 that prints below
    100000.000. *)
Definition time_field (t : float) (f : string) : Prop :=
  exists (pad sgn ip frac : string) (neg : bool),
    f = pad +++ sgn +++ ip +++ "." +++ frac
    /\ all_chars is_space pad = true
    /\ sgn = (if neg then "-"%string else ""%string)
    /\ canonical ip = true
    /\ all_chars is_digit frac = true
    /\ String.length frac = 3%nat
    /\ nearest_thousandth t neg
         (Z.of_N (value_digits 0 ip) * 1000 + Z.of_N (value_digits 0 frac))
    /\ String.length pad
       = (9 - (String.length sgn + String.length ip + 4))%nat
    /\ (neg = false -> Z.of_N (value_digits 0 ip) < 100000 ->
        String.length f = 9%nat).

(** The layout of a sample line. *)
Definition line_template (s : Sample) (line : string) : Prop :=
  let '(w0, w1, w2, w3) := wrect s in
  let '(c0, c1, c2, c3) := crect s in
  exists T X Y W0 W1 W2 W3 C0 C1 C2 C3 RX RY,
    line = "t=" +++ T
           +++ "  mouse=(" +++ X +++ "," +++ Y
           +++ ")  win=[" +++ W0 +++ "," +++ W1 +++ "," +++ W2 +++ "," +++ W3
           +++ "]  client=[" +++ C0 +++ "," +++ C1 +++ "," +++ C2 +++ "," +++ C3
           +++ "]  mouse_in_client=(" +++ RX +++ "," +++ RY +++ ")"
    /\ time_field (now s) T
    /\ int_field (mx s) X /\ int_field (my s) Y
    /\ int_field w0 W0 /\ int_field w1 W1 /\ int_field w2 W2 /\ int_field w3 W3
    /\ int_field c0 C0 /\ int_field c1 C1 /\ int_field c2 C2 /\ int_field c3 C3
    /\ int_field (relx s) RX /\ int_field (rely s) RY.

(** The layout with the widths of the specification taken as exact: the
    same labels and separators around a timestamp of nine characters and
    integers of five characters each, whatever the fields hold. *)
Definition line_template_fixed (line : string) : Prop :=
  exists T X Y W0 W1 W2 W3 C0 C1 C2 C3 RX RY,
    line = "t=" +++ T
           +++ "  mouse=(" +++ X +++ "," +++ Y
           +++ ")  win=[" +++ W0 +++ "," +++ W1 +++ "," +++ W2 +++ "," +++ W3
           +++ "]  client=[" +++ C0 +++ "," +++ C1 +++ "," +++ C2 +++ "," +++ C3
           +++ "]  mouse_in_client=(" +++ RX +++ "," +++ RY +++ ")"
    /\ String.length T = 9%nat
    /\ Forall (fun f => String.length f = 5%nat)
         [X; Y; W0; W1; W2; W3; C0; C1; C2; C3; RX; RY].

End Spec.

(* ================================================================= *)
(** ** Ticks, queries and their outcomes *)

Module Outcome.
Import Py Win32 PyStr PyFloat Tracker.

(** The sampling loop is Running while the stop flag is clear. *)
Definition running (st : State) : Prop := _stop (self st) = false.

(** The handle a tick works with: the stored one when it is true, else
    what [winfo_id] answers this time. *)
Definition resolved_handle (os : OS) (st : State) : result Z :=
  if truthy (hwnd (self st)) then Ok (hwnd_value (hwnd (self st)))
  else winfo_id os.

(** The handle is unavailable: none is stored, and asked again the
    window gives none (it answers 0) or the asking raises. *)
Definition handle_unavailable (os : OS) (st : State) : Prop :=
  truthy (hwnd (self st)) = false
  /\ match winfo_id os with
     | Ok n => n = 0
     | Raise _ => True
     end.

Definition cursor_fails (os : OS) : Prop :=
  fst (GetCursorPos os (POINT_ 0 0)) = 0.



Definition translation_fails (os : OS) (h : Z) (px py : Z) : Prop :=
  fst (ScreenToClient os h (POINT_ px py)) = 0.


(** The delay of the next tick, [int(self.interval * 1000)]. *)
Definition delay_ms (st : State) : int_result :=
  int_of_float (PrimFloat.mul (interval (self st)) 1000).

(** The [try] statement of [_tick], with its handler. *)
Definition tick_try (os : OS) : M State unit :=
  try_except (tick_body os) is_Exception
    (fun e => in_world (eprint ("[error] " +++ str_exn e))).

(** What a tick leaves behind. *)
Definition after_tick (os : OS) (st : State) : State := snd (_tick os st).

Definition emits_sample (os : OS) (st : State) : Prop :=
  exists line,
    stdout (world (after_tick os st)) = stdout (world st) ++ [line].

Definition emits_nothing (os : OS) (st : State) : Prop :=
  stdout (world (after_tick os st)) = stdout (world st).

Definition reports_error (os : OS) (st : State) : Prop :=
  exists msg,
    stderr (world (after_tick os st))
    = stderr (world st) ++ ["[error] " +++ msg].

(** Exactly one more callback is pending after the tick than before. *)
Definition schedules_one (os : OS) (st : State) (ms : Z) : Prop :=
  timers (world (after_tick os st)) = timers (world st) ++ [ms].

Definition zero_rect : Z * Z * Z * Z := (0, 0, 0, 0).

End Outcome.

(* ================================================================= *)
(** ** Scenarios: concrete operating systems and processes *)

Module Scenario.
Import Py Win32 PyStr PyFloat Tracker.

(** A window of 400x240 at (200, 200) whose client area of 384x201
    starts at (208, 231), the cursor at (640, 480). *)
Definition os_ok : OS :=
  mkOS (fun _ => (1, mkPOINT 640 480))
       (fun _ _ => (1, mkRECT 200 200 600 440))
       (fun _ _ => (1, mkRECT 0 0 384 201))
       (fun _ p => (1, mkPOINT (x p + 208) (y p + 231)))
       (fun _ p => (1, mkPOINT (x p - 208) (y p - 231)))
       (fun _ => Ok 144)
       (Ok 1234)
       12.345.

(** The same, with [GetCursorPos] denied. *)
Definition os_cursor_denied : OS :=
  mkOS (fun p => (0, p))
       (GetWindowRect os_ok) (GetClientRect os_ok) (ClientToScreen os_ok)
       (ScreenToClient os_ok) (GetDpiForWindow os_ok) (winfo_id os_ok)
       (perf_counter os_ok).

(** The window not realized yet: [winfo_id] answers 0. *)
Definition os_no_window : OS :=
  mkOS (GetCursorPos os_ok)
       (GetWindowRect os_ok) (GetClientRect os_ok) (ClientToScreen os_ok)
       (ScreenToClient os_ok) (GetDpiForWindow os_ok) (Ok 0)
       (perf_counter os_ok).

(** The window handle gone stale for [ScreenToClient] alone. *)
Definition os_translation_denied : OS :=
  mkOS (GetCursorPos os_ok)
       (GetWindowRect os_ok) (GetClientRect os_ok) (ClientToScreen os_ok)
       (fun _ p => (0, p)) (GetDpiForWindow os_ok) (winfo_id os_ok)
       (perf_counter os_ok).

(** An older Windows: user32 has no [GetDpiForWindow]. *)
Definition os_no_dpi : OS :=
  mkOS (GetCursorPos os_ok)
       (GetWindowRect os_ok) (GetClientRect os_ok) (ClientToScreen os_ok)
       (ScreenToClient os_ok)
       (fun _ => Raise (AttributeError "function 'GetDpiForWindow' not found"))
       (winfo_id os_ok) (perf_counter os_ok).

(** A process in the middle of its run: interval 0.1 s, handle 1234,
    nothing printed yet, no callback pending. *)
Definition st_running : State :=
  mkState (mkTrackerApp 0.1 false (Some 1234)) world0.

(** The same with no handle stored. *)
Definition st_no_handle : State :=
  mkState (mkTrackerApp 0.1 false None) world0.

(** The same process with its next tick pending. *)
Definition st_started : State :=
  mkState (mkTrackerApp 0.1 false (Some 1234))
          (mkWorld [] [] [100] [] false).

(** A window that cannot be asked for its handle: [winfo_id] raises. *)
Definition os_window_unrealized : OS :=
  mkOS (GetCursorPos os_ok)
       (GetWindowRect os_ok) (GetClientRect os_ok) (ClientToScreen os_ok)
       (ScreenToClient os_ok) (GetDpiForWindow os_ok)
       (Raise (TclError "bad window path name"))
       (perf_counter os_ok).

(** The sample of a minimized window, which Windows puts at -32000. *)
Definition sample_minimized : Sample :=
  mkSample 12.345 640 480 (-32000, -32000, -31840, -31972)
           (-32000, -32000, -32000, -32000) 32640 32480.

(** The sample of a machine that has been up for more than 100000 s
    (27 h 47 min): [time.perf_counter] counts from the start of the
    machine on Windows. *)
Definition sample_long_uptime : Sample :=
  mkSample 100000.5 640 480 (200, 200, 600, 440) (208, 231, 592, 432) 432 249.

(** [sys.argv] for [python tracker_cli.py <arg>]. *)
Definition argv_of (arg : string) : list string :=
  ["tracker_cli.py"%string; arg].

Definition sample_ok : Sample :=
  mkSample 12.345 640 480 (200, 200, 600, 440) (208, 231, 592, 432) 432 249.

End Scenario.

(* ================================================================= *)
(** ** DPI awareness at start-up *)

Module Dpi.
Import Py Win32.
Local Open Scope py_scope.

(** The three entry points [enable_dpi_awareness] tries.  Each returns
    or raises (an [AttributeError] where the library has no such entry);
    [shcore] is [None] where the library could not be loaded.
    [wintypes_has_HRESULT] says whether the module [ctypes.wintypes] has an
    attribute [HRESULT], which line 65 reads: it has none in CPython (the
    type is [ctypes.HRESULT]). *)
Record DpiOS : Type := mkDpiOS {
  SetProcessDpiAwarenessContext : Z -> result BOOL;
  shcore : option (Z -> result Z);       (* shcore.SetProcessDpiAwareness *)
  wintypes_has_HRESULT : bool;
  SetProcessDPIAware : result BOOL
}.

Inductive DpiCall : Type :=
| TryAwarenessContext (ctx : Z)
| TryProcessAwareness (level : Z)
| TryLegacyAware.

Definition DPI_AWARENESS_CONTEXT_PER_MONITOR_AWARE_V2 : Z := -4.

Definition attempt (c : DpiCall) : M (list DpiCall) unit :=
  modify (fun l => l ++ [c]).

(** [hr in (0, 0x80070005)] *)
Definition hr_accepted (hr : Z) : bool := (hr =? 0) || (hr =? 2147942405).

(** [W.HRESULT], the attribute of [ctypes.wintypes]. *)
Definition W_HRESULT (os : DpiOS) : M (list DpiCall) unit :=
  if wintypes_has_HRESULT os then ret tt
  else raise (AttributeError
                "module 'ctypes.wintypes' has no attribute 'HRESULT'").

(** [enable_dpi_awareness]: each [try] block yields whether it ended in
    [return]. *)
Definition enable_dpi_awareness (os : DpiOS) : M (list DpiCall) unit :=
  (* Try Per-Monitor V2 *)
  returned <-
    try_except
      (attempt (TryAwarenessContext DPI_AWARENESS_CONTEXT_PER_MONITOR_AWARE_V2) ;;
       ok <- of_result (SetProcessDpiAwarenessContext os
                          DPI_AWARENESS_CONTEXT_PER_MONITOR_AWARE_V2) ;;
       ret (negb (py_not ok)))
      is_Exception (fun _ => ret false) ;;
  if returned then ret tt
  else
    (* Fallback: PROCESS_PER_MONITOR_DPI_AWARE (2) *)
    returned <-
      try_except
        (match shcore os with
         | Some SetProcessDpiAwareness =>
             (* .argtypes = [W.INT]; .restype = W.HRESULT *)
             W_HRESULT os ;;
             attempt (TryProcessAwareness 2) ;;
             hr <- of_result (SetProcessDpiAwareness 2) ;;
             ret (hr_accepted hr)
         | None => ret false
         end)
        is_Exception (fun _ => ret false) ;;
    if returned then ret tt
    else
      (* Last resort (system DPI aware) *)
      try_except
        (attempt TryLegacyAware ;;
         _ <- of_result (SetProcessDPIAware os) ;;
         ret tt)
        is_Exception (fun _ => ret tt).

(** Whether the first tier succeeded. *)
Definition context_tier_ok (os : DpiOS) : bool :=
  match SetProcessDpiAwarenessContext os
          DPI_AWARENESS_CONTEXT_PER_MONITOR_AWARE_V2 with
  | Ok b => negb (b =? 0)
  | Raise _ => false
  end.

(** A Windows that knows per-monitor V2. *)
Definition dpi_os_modern : DpiOS :=
  mkDpiOS (fun _ => Ok 1) (Some (fun _ => Ok 0)) false (Ok 1).

(** A Windows 8.1: no awareness context, shcore present. *)
Definition dpi_os_81 : DpiOS :=
  mkDpiOS (fun _ => Raise (AttributeError "function 'SetProcessDpiAwarenessContext' not found"))
          (Some (fun _ => Ok 0)) false (Ok 1).

(** A Windows 7: neither, only the legacy call. *)
Definition dpi_os_7 : DpiOS :=
  mkDpiOS (fun _ => Raise (AttributeError "function 'SetProcessDpiAwarenessContext' not found"))
          None false (Ok 1).

End Dpi.

(* ================================================================= *)
(** ** The whole program: the window, the constructor, [main] *)

Module Program.
Import Py Win32 PyStr PyFloat Tracker Dpi.
Local Open Scope py_scope.

(** What Tk answers while the window is built: each call returns or
    raises (a [TclError], as when there is no display). *)
Record Tk : Type := mkTk {
  Tk_new : result unit;                        (* tk.Tk() *)
  root_title : string -> result unit;          (* root.title(s) *)
  root_geometry : string -> result unit;       (* root.geometry(s) *)
  Frame_new : string -> result unit;           (* tk.Frame(root, bg=s) *)
  frame_pack : string -> bool -> result unit;  (* frame.pack(fill=s, expand=b) *)
  root_bind : string -> result unit            (* root.bind(s, callback) *)
}.

Inductive TkCall : Type :=
| MakeRoot
| SetTitle (s : string)
| SetGeometry (s : string)
| MakeFrame (bg : string)
| Pack (fill : string) (expand : bool)
| Bind (sequence : string).

Definition tk_call (c : TkCall) (r : result unit) : M (list TkCall) unit :=
  modify (fun l => l ++ [c]) ;; of_result r.

(** Lines 122-130 of [__init__]: none of them is inside a [try]. *)
Definition create_window (tk : Tk) : M (list TkCall) unit :=
  tk_call MakeRoot (Tk_new tk) ;;
  tk_call (SetTitle "Tracker Window") (root_title tk "Tracker Window") ;;
  tk_call (SetGeometry "400x240+200+200")
          (root_geometry tk "400x240+200+200") ;;
  (* blank content *)
  tk_call (MakeFrame "white") (Frame_new tk "white") ;;
  tk_call (Pack "both" true) (frame_pack tk "both" true) ;;
  (* Quit on ESC *)
  tk_call (Bind "<Escape>") (root_bind tk "<Escape>").

(** The calls that build the window, when all of them return. *)
Definition window_calls : list TkCall :=
  [MakeRoot; SetTitle "Tracker Window"; SetGeometry "400x240+200+200";
   MakeFrame "white"; Pack "both" true; Bind "<Escape>"].

(** [TrackerApp(interval_sec)]: the whole constructor, over the calls
    made to Tk and the world. *)
Definition TrackerApp_new (tk : Tk) (os : OS) (interval_sec : float)
  : M (list TkCall * World) TrackerApp :=
  lift fst (fun l p => (l, snd p)) (create_window tk) ;;
  lift snd (fun w p => (fst p, w)) (__init__ os interval_sec).

(** What a run of the program leaves: the DPI calls tried, the Tk calls
    that built the window, and the world. *)
Record Trace : Type := mkTrace {
  dpi_calls : list DpiCall;
  tk_calls : list TkCall;
  final : World
}.

(** [main] from its first line on: DPI awareness, the command line, the
    constructor with the creation of the window, the loop.  The events
    are those of [mainloop]: timer and Escape events.  (The handler that
    line 199 installs is for SIGINT, which is not one of them.) *)
Definition program (dos : DpiOS) (tk : Tk) (os : OS) (argv : list string)
           (evs : list event) : result unit * Trace :=
  match enable_dpi_awareness dos [] with
  | (Ok _, dl) =>
      match parse_interval argv world0 with
      | (Ok interval, w) =>
          match TrackerApp_new tk os interval ([], w) with
          | (Ok app, (tl, w')) =>
              let '(r, st) := mainloop evs (mkState app w') in
              (r, mkTrace dl tl (world st))
          | (Raise e, (tl, w')) => (Raise e, mkTrace dl tl w')
          end
      | (Raise e, w) => (Raise e, mkTrace dl [] w)
      end
  | (Raise e, dl) => (Raise e, mkTrace dl [] world0)
  end.

(** A desktop where every call returns, and a session without a display,
    where [tk.Tk()] raises. *)
Definition tk_ok : Tk :=
  mkTk (Ok tt) (fun _ => Ok tt) (fun _ => Ok tt) (fun _ => Ok tt)
       (fun _ _ => Ok tt) (fun _ => Ok tt).

Definition tk_no_display : Tk :=
  mkTk (Raise (TclError "no display name and no $DISPLAY environment variable"))
       (fun _ => Ok tt) (fun _ => Ok tt) (fun _ => Ok tt)
       (fun _ _ => Ok tt) (fun _ => Ok tt).

End Program.

(* ================================================================= *)
(** ** The event loop: what it keeps *)

Module Loop.
Import Py Win32 PyStr PyFloat Tracker.

(** The number of timer events among the events. *)
Fixpoint n_timers (evs : list event) : nat :=
  match evs with
  | [] => O
  | Timer _ :: evs' => S (n_timers evs')
  | Escape :: evs' => n_timers evs'
  end.

(** A line of the sample stream: the formatted line of some sample. *)
Definition sample_line (l : string) : Prop := exists s, l = format_line s.

(** A line a tick writes to the error stream. *)
Definition error_line (l : string) : Prop := exists msg, l = "[error] " +++ msg.

(** While the loop runs with a finite interval exactly one callback is
    pending; once stopped, at most one. *)
Definition one_pending (st : State) : Prop :=
  (List.length (timers (world st)) <= 1)%nat
  /\ (_stop (self st) = false -> List.length (timers (world st)) = 1%nat).

(** What [__init__] prints after the banner: the DPI line, when the
    window has a handle and a DPI. *)
Definition dpi_lines (os : OS) : list string :=
  match winfo_id os with
  | Ok n =>
      if truthy (Some n) then
        match GetDpiForWindow os n with
        | Ok d => if truthy (Some d) then [dpi_line d] else []
        | Raise _ => []
        end
      else []
  | Raise _ => []
  end.

(** Reading an integer field back: the spaces are skipped, then comes an
    optional minus sign and the digits. *)
Fixpoint skip_spaces (s : string) : string :=
  match s with
  | String c s' => if is_space c then skip_spaces s' else s
  | EmptyString => EmptyString
  end.

Definition read_int (s : string) : Z :=
  match skip_spaces s with
  | String c s' =>
      if Ascii.eqb c "-" then - Z.of_N (value_digits 0 s')
      else Z.of_N (value_digits 0 (String c s'))
  | EmptyString => 0
  end.

(** The integer fields of a sample, in the order of the line. *)
Definition int_fields (s : Sample) : list Z :=
  let '(w0, w1, w2, w3) := wrect s in
  let '(c0, c1, c2, c3) := crect s in
  [mx s; my s; w0; w1; w2; w3; c0; c1; c2; c3; relx s; rely s].

Definition fits_5 (n : Z) : Prop := -9999 <= n <= 99999.

(** [0 <= t < 99999.9995], on the exact binary value of [t]: the times
    that print below 100000.000. *)
Definition prints_below_100000 (t : float) : Prop :=
  match Prim2SF t with
  | S754_zero _ => True
  | S754_finite false m e =>
      if 0 <=? e then 2000 * (Zpos m * 2 ^ e) < 199999999
      else 2000 * Zpos m < 199999999 * 2 ^ (- e)
  | _ => False
  end.

(** The operating system translates between screen and client
    coordinates of window [h] by the client origin [o]. *)
Definition translates_by (os : OS) (h : Z) (o : POINT) : Prop :=
  (exists ok, ClientToScreen os h (POINT_ 0 0) = (ok, o) /\ ok <> 0)
  /\ forall p, exists ok,
       ScreenToClient os h p = (ok, mkPOINT (x p - x o) (y p - y o))
       /\ ok <> 0.

Definition in_long (z : Z) : Prop := - 2 ^ 31 <= z < 2 ^ 31.

End Loop.

(* ================================================================= *)
(** ** The scale of the DPI line *)

Module Scale.
Import PyStr PyFloat Tracker.

(** [dpi / 96] to two decimals, computed on the integers: the nearest
    hundredth, ties to even. *)
Definition scale_exact (dpi : Z) : string :=
  let q := round_half_even (100 * dpi) 96 in
  str_N (Z.to_N (q / 100)) +++ "." +++ fixed_digits 2 (Z.to_N (q mod 100)).

(** The scale as the program prints it, through the floats. *)
Definition scale_shown (dpi : Z) : string :=
  format_f 0 2 (PrimFloat.div (float_of_Z dpi) 96).

Definition scale_agrees (n : nat) : bool :=
  String.eqb (scale_shown (Z.of_nat n)) (scale_exact (Z.of_nat n)).

End Scale.

(* ================================================================= *)
(** * Properties *)

(** ** Strings *)

Section StringFacts.
Import PyStr.

Lemma length_append (a b : string) :
  String.length (a +++ b) = (String.length a + String.length b)%nat.
Proof.
  induction a as [|c a IH]; simpl; [reflexivity | now rewrite IH].
Qed.

Lemma append_assoc (a b c : string) : (a +++ b) +++ c = a +++ (b +++ c).
Proof.
  induction a as [|ch a IH]; simpl; [reflexivity | now rewrite IH].
Qed.

Lemma all_chars_append p (a b : string) :
  all_chars p (a +++ b) = all_chars p a && all_chars p b.
Proof.
  induction a as [|c a IH]; simpl; [reflexivity|].
  now rewrite IH, andb_assoc.
Qed.

Lemma length_replicate n c : String.length (replicate n c) = n.
Proof. induction n; simpl; congruence. Qed.

Lemma all_chars_replicate p n c : p c = true -> all_chars p (replicate n c) = true.
Proof. intros Hc. induction n; simpl; [reflexivity | now rewrite Hc, IHn]. Qed.

Lemma length_rjust w s :
  String.length (rjust w s) = Nat.max w (String.length s).
Proof.
  unfold rjust. rewrite length_append, length_replicate. lia.
Qed.

Lemma rjust_fits w s :
  (String.length s <= w)%nat -> String.length (rjust w s) = w.
Proof. intros H. rewrite length_rjust. lia. Qed.

Lemma is_digit_digit_char d : (d < 10)%N -> is_digit (digit_char d) = true.
Proof.
  intros H. unfold is_digit, digit_char.
  rewrite N_ascii_embedding by lia.
  apply andb_true_intro; split; apply N.leb_le; lia.
Qed.

Lemma N_of_digit_char d : (d < 10)%N -> (N_of_ascii (digit_char d) - 48 = d)%N.
Proof.
  intros H. unfold digit_char. rewrite N_ascii_embedding by lia. lia.
Qed.

Lemma mod10_lt n : (n mod 10 < 10)%N.
Proof. apply N.mod_lt. discriminate. Qed.

(** *** The digits of a natural number *)

Lemma digits_fuel_length_ge f : forall n acc,
  (S (String.length acc) <= String.length (digits_fuel f n acc))%nat.
Proof.
  induction f as [|f IH]; intros n acc; simpl.
  - lia.
  - destruct (n / 10 =? 0)%N; simpl; [lia|].
    specialize (IH (n / 10)%N (String (digit_char (n mod 10)) acc)).
    simpl in IH. lia.
Qed.

Lemma digits_fuel_length_le f : forall n acc k,
  (n < 10 ^ N.of_nat (S k))%N ->
  (String.length (digits_fuel f n acc) <= S k + String.length acc)%nat.
Proof.
  induction f as [|f IH]; intros n acc k Hn; simpl.
  - lia.
  - destruct (n / 10 =? 0)%N eqn:Hq; simpl; [lia|].
    apply N.eqb_neq in Hq.
    destruct k as [|k].
    + exfalso. apply Hq. apply N.div_small. simpl in Hn. exact Hn.
    + specialize (IH (n / 10)%N (String (digit_char (n mod 10)) acc) k).
      simpl String.length in IH.
      assert (n / 10 < 10 ^ N.of_nat (S k))%N.
      { apply N.Div0.div_lt_upper_bound.
        replace (N.of_nat (S (S k))) with (N.succ (N.of_nat (S k))) in Hn by lia.
        rewrite N.pow_succ_r' in Hn. exact Hn. }
      specialize (IH H). lia.
Qed.

Lemma digits_fuel_all_digits f : forall n acc,
  all_chars is_digit acc = true ->
  all_chars is_digit (digits_fuel f n acc) = true.
Proof.
  induction f as [|f IH]; intros n acc Hacc; simpl.
  - now rewrite is_digit_digit_char by apply mod10_lt.
  - destruct (n / 10 =? 0)%N.
    + simpl. now rewrite is_digit_digit_char by apply mod10_lt.
    + apply IH. simpl. now rewrite is_digit_digit_char by apply mod10_lt.
Qed.

Lemma value_digits_cons a c s :
  value_digits a (String c s) = value_digits (10 * a + (N_of_ascii c - 48))%N s.
Proof. reflexivity. Qed.

Lemma digits_fuel_value f : forall n acc a,
  (n < 2 ^ N.of_nat (S f))%N ->
  exists k, value_digits a (digits_fuel f n acc)
            = value_digits (a * 10 ^ k + n)%N acc.
Proof.
  induction f as [|f IH]; intros n acc a Hn.
  - exists 1%N. cbn [digits_fuel]. rewrite value_digits_cons.
    rewrite N_of_digit_char by apply mod10_lt.
    change (2 ^ N.of_nat 1)%N with 2%N in Hn.
    rewrite N.mod_small by lia. f_equal. rewrite N.pow_1_r. lia.
  - cbn [digits_fuel]. destruct (n / 10 =? 0)%N eqn:Hq.
    + apply N.eqb_eq in Hq. exists 1%N. rewrite value_digits_cons.
      rewrite N_of_digit_char by apply mod10_lt.
      f_equal. rewrite N.pow_1_r. pose proof (N.div_mod n 10). lia.
    + destruct (IH (n / 10)%N (String (digit_char (n mod 10)) acc) a) as [k Hk].
      { replace (N.of_nat (S (S f))) with (N.succ (N.of_nat (S f))) in Hn by lia.
        rewrite N.pow_succ_r' in Hn.
        apply N.Div0.div_lt_upper_bound. lia. }
      exists (N.succ k). rewrite Hk. rewrite value_digits_cons.
      rewrite N_of_digit_char by apply mod10_lt.
      f_equal. rewrite N.pow_succ_r'.
      pose proof (N.div_mod n 10). lia.
Qed.

(** [str_N] writes [n]: reading the digits back gives [n]. *)
Lemma value_str_N n : value_digits 0 (str_N n) = n.
Proof.
  unfold str_N.
  destruct (digits_fuel_value (N.to_nat (N.log2 n)) n EmptyString 0) as [k Hk].
  - destruct n as [|p]; [reflexivity|].
    replace (N.of_nat (S (N.to_nat (N.log2 (N.pos p)))))
      with (N.succ (N.log2 (N.pos p))) by lia.
    apply N.log2_spec. reflexivity.
  - rewrite Hk. simpl. lia.
Qed.

Lemma str_N_all_digits n : all_chars is_digit (str_N n) = true.
Proof. apply digits_fuel_all_digits. reflexivity. Qed.

Lemma str_N_length_ge n : (1 <= String.length (str_N n))%nat.
Proof. apply (digits_fuel_length_ge _ n EmptyString). Qed.

Lemma str_N_length_le n k :
  (n < 10 ^ N.of_nat (S k))%N -> (String.length (str_N n) <= S k)%nat.
Proof.
  intros H. unfold str_N.
  pose proof (digits_fuel_length_le (N.to_nat (N.log2 n)) n EmptyString k H).
  simpl in *. lia.
Qed.

Lemma str_Z_length_5 n :
  -9999 <= n <= 99999 -> (String.length (str_Z n) <= 5)%nat.
Proof.
  intros H. unfold str_Z. destruct (n <? 0) eqn:Hn.
  - apply Z.ltb_lt in Hn. simpl.
    assert (String.length (str_N (Z.abs_N n)) <= 4)%nat; [|lia].
    apply str_N_length_le. change (10 ^ N.of_nat 4)%N with 10000%N. lia.
  - apply Z.ltb_ge in Hn.
    apply str_N_length_le. change (10 ^ N.of_nat 5)%N with 100000%N. lia.
Qed.

Lemma fixed_digits_length k : forall n, String.length (fixed_digits k n) = k.
Proof.
  induction k as [|k IH]; intros n; simpl; [reflexivity|].
  rewrite length_append, IH. simpl. lia.
Qed.

Lemma fixed_digits_all_digits k : forall n,
  all_chars is_digit (fixed_digits k n) = true.
Proof.
  induction k as [|k IH]; intros n; simpl; [reflexivity|].
  rewrite all_chars_append, IH. simpl.
  now rewrite is_digit_digit_char by apply mod10_lt.
Qed.

End StringFacts.

(** ** The sample line *)

Section LineFacts.
Import PyStr PyFloat Tracker Spec.

Lemma digit_char_zero d :
  (d < 10)%N -> Ascii.eqb (digit_char d) "0" = (d =? 0)%N.
Proof.
  intros H. destruct (N.eqb_spec d 0) as [->|Hd]; [reflexivity|].
  apply Ascii.eqb_neq. intros E. apply (f_equal N_of_ascii) in E.
  unfold digit_char in E. rewrite N_ascii_embedding in E by lia.
  change (N_of_ascii "0") with 48%N in E. lia.
Qed.

Lemma canonical_cons c acc :
  canonical (String c acc)
  = is_digit c && all_chars is_digit acc
    && match acc with
       | EmptyString => true
       | _ => negb (Ascii.eqb c "0")
       end.
Proof. destruct acc; reflexivity. Qed.

Lemma digits_fuel_canonical f : forall n acc,
  (n < 2 ^ N.of_nat (S f))%N ->
  all_chars is_digit acc = true ->
  n <> 0%N \/ acc = EmptyString ->
  canonical (digits_fuel f n acc) = true.
Proof.
  assert (Hlast : forall n acc, (n < 10)%N ->
            all_chars is_digit acc = true ->
            n <> 0%N \/ acc = EmptyString ->
            canonical (String (digit_char (n mod 10)) acc) = true).
  { intros n acc Hn Hacc Hz. rewrite canonical_cons, Hacc.
    rewrite N.mod_small by exact Hn.
    rewrite is_digit_digit_char by exact Hn. cbn [andb].
    destruct acc; [reflexivity|].
    rewrite digit_char_zero by exact Hn.
    destruct Hz as [Hz|Hz]; [|discriminate Hz].
    apply N.eqb_neq in Hz. now rewrite Hz. }
  induction f as [|f IH]; intros n acc Hn Hacc Hz; cbn [digits_fuel].
  - apply Hlast; auto. change (2 ^ N.of_nat 1)%N with 2%N in Hn. lia.
  - destruct (n / 10 =? 0)%N eqn:Hq.
    + apply N.eqb_eq in Hq. apply Hlast; auto.
      pose proof (N.div_mod n 10). pose proof (mod10_lt n). lia.
    + apply N.eqb_neq in Hq. apply IH.
      * replace (N.of_nat (S (S f))) with (N.succ (N.of_nat (S f))) in Hn by lia.
        rewrite N.pow_succ_r' in Hn.
        apply N.Div0.div_lt_upper_bound. lia.
      * cbn [all_chars]. rewrite Hacc.
        now rewrite is_digit_digit_char by apply mod10_lt.
      * left. exact Hq.
Qed.

Lemma canonical_str_N n : canonical (str_N n) = true.
Proof.
  unfold str_N. apply digits_fuel_canonical; [|reflexivity|right; reflexivity].
  destruct n as [|p]; [reflexivity|].
  replace (N.of_nat (S (N.to_nat (N.log2 (N.pos p)))))
    with (N.succ (N.log2 (N.pos p))) by lia.
  apply N.log2_spec. reflexivity.
Qed.

Lemma int_field_format_d n : int_field n (format_d 5 n).
Proof.
  exists (replicate (5 - String.length (str_Z n)) " "),
         (if n <? 0 then "-"%string else ""%string), (str_N (Z.abs_N n)).
  assert (Hstr : str_Z n
                 = (if n <? 0 then "-"%string else ""%string)
                   +++ str_N (Z.abs_N n))
    by (unfold str_Z; destruct (n <? 0); reflexivity).
  repeat apply conj.
  - unfold format_d, rjust. now rewrite Hstr.
  - apply all_chars_replicate. reflexivity.
  - destruct (n <? 0) eqn:Hn; [apply Z.ltb_lt in Hn | apply Z.ltb_ge in Hn];
      auto.
  - apply canonical_str_N.
  - rewrite value_str_N. lia.
  - rewrite length_replicate, Hstr, length_append. reflexivity.
  - intros H. unfold format_d. apply rjust_fits. now apply str_Z_length_5.
Qed.

Lemma round_half_even_nonneg n d : 0 <= n -> 0 < d -> 0 <= round_half_even n d.
Proof.
  intros Hn Hd. unfold round_half_even.
  assert (0 <= n / d) by (apply Z.div_pos; lia).
  destruct (2 * (n mod d) <? d); [lia|].
  destruct (2 * (n mod d) =? d); [destruct (Z.even (n / d))|]; lia.
Qed.

Lemma scaled_abs_nonneg prec x : 0 <= scaled_abs prec x.
Proof.
  unfold scaled_abs. destruct (Prim2SF x) as [s|s| |s m e]; try lia.
  assert (0 < 10 ^ Z.of_nat prec) by (apply Z.pow_pos_nonneg; lia).
  destruct (0 <=? e) eqn:He.
  - apply Z.leb_le in He.
    assert (0 < 2 ^ e) by (apply Z.pow_pos_nonneg; lia). nia.
  - apply Z.leb_gt in He.
    apply round_half_even_nonneg; [nia|].
    apply Z.pow_pos_nonneg; lia.
Qed.

Lemma value_digits_append : forall a b acc,
  value_digits acc (a +++ b) = value_digits (value_digits acc a) b.
Proof.
  induction a as [|c a IH]; intros b acc; simpl; [reflexivity | apply IH].
Qed.

Lemma fixed_digits_value k : forall n,
  value_digits 0 (fixed_digits k n) = (n mod 10 ^ N.of_nat k)%N.
Proof.
  induction k as [|k IH]; intros n.
  - simpl. now rewrite N.mod_1_r.
  - cbn [fixed_digits]. rewrite value_digits_append, IH, value_digits_cons.
    rewrite N_of_digit_char by apply mod10_lt. cbn [value_digits].
    replace (N.of_nat (S k)) with (N.succ (N.of_nat k)) by lia.
    rewrite N.pow_succ_r'.
    rewrite (N.Div0.mod_mul_r n 10 (10 ^ N.of_nat k)). lia.
Qed.

(** Rounding to the nearest integer is off by a half at most. *)
Lemma round_half_even_near n d :
  0 <= n -> 0 < d -> 2 * Z.abs (round_half_even n d * d - n) <= d.
Proof.
  intros Hn Hd. unfold round_half_even.
  pose proof (Z.div_mod n d ltac:(lia)) as E.
  pose proof (Z.mod_pos_bound n d Hd) as Hr.
  set (q := n / d) in *. set (r := n mod d) in *.
  destruct (2 * r <? d) eqn:H1; [apply Z.ltb_lt in H1 | apply Z.ltb_ge in H1].
  - nia.
  - destruct (2 * r =? d) eqn:H2; [apply Z.eqb_eq in H2 | apply Z.eqb_neq in H2].
    + destruct (Z.even q); nia.
    + nia.
Qed.

Lemma round_half_even_below n d b :
  0 <= n -> 0 < d -> 2 * n < (2 * b - 1) * d -> round_half_even n d < b.
Proof.
  intros Hn Hd Hb. unfold round_half_even.
  pose proof (Z.div_mod n d ltac:(lia)) as E.
  pose proof (Z.mod_pos_bound n d Hd) as Hr.
  set (q := n / d) in *. set (r := n mod d) in *.
  destruct (2 * r <? d) eqn:H1; [apply Z.ltb_lt in H1 | apply Z.ltb_ge in H1].
  - nia.
  - destruct (2 * r =? d) eqn:H2; [apply Z.eqb_eq in H2 | apply Z.eqb_neq in H2].
    + destruct (Z.even q); nia.
    + nia.
Qed.

Lemma scaled_abs_nearest t :
  is_finite t = true -> nearest_thousandth t (sign_bit t) (scaled_abs 3 t).
Proof.
  unfold is_finite, nearest_thousandth, sign_bit, scaled_abs.
  change (10 ^ Z.of_nat 3) with 1000.
  destruct (Prim2SF t) as [s|s| |s m e]; try discriminate; intros _.
  - split; reflexivity.
  - split; [reflexivity|]. destruct (0 <=? e) eqn:He; [lia|].
    apply Z.leb_gt in He.
    assert (0 < 2 ^ (- e)) by (apply Z.pow_pos_nonneg; lia).
    rewrite (Z.mul_comm 1000 (Z.pos m)).
    apply round_half_even_near; lia.
Qed.

Lemma time_field_format_f t :
  is_finite t = true -> time_field t (format_f 9 3 t).
Proof.
  intros Hfin.
  assert (Hrepr : repr_f 3 t = fixed_point 3 (sign_bit t) (scaled_abs 3 t)).
  { unfold repr_f, is_finite in *.
    destruct (Prim2SF t); try discriminate; reflexivity. }
  pose proof (scaled_abs_nonneg 3 t) as Hk.
  pose proof (scaled_abs_nearest t Hfin) as Hnear.
  set (K := scaled_abs 3 t) in *.
  set (ip := str_N (Z.to_N (K / 10 ^ Z.of_nat 3))).
  set (frac := fixed_digits 3 (Z.to_N (K mod 10 ^ Z.of_nat 3))).
  set (sgn := if sign_bit t then "-"%string else ""%string).
  assert (Hbody : repr_f 3 t = sgn +++ ip +++ "." +++ frac)
    by (rewrite Hrepr; unfold sgn; destruct (sign_bit t); reflexivity).
  exists (replicate (9 - String.length (repr_f 3 t)) " "), sgn, ip, frac,
         (sign_bit t).
  change (10 ^ Z.of_nat 3) with 1000 in *.
  assert (Hfl : String.length frac = 3%nat) by apply fixed_digits_length.
  pose proof (Z.mod_pos_bound K 1000 ltac:(lia)) as Hmod.
  assert (Hdiv : 0 <= K / 1000) by (apply Z.div_pos; lia).
  assert (Hip : Z.of_N (value_digits 0 ip) = K / 1000)
    by (unfold ip; rewrite value_str_N; lia).
  assert (Hfr : Z.of_N (value_digits 0 frac) = K mod 1000).
  { unfold frac. rewrite fixed_digits_value.
    change (10 ^ N.of_nat 3)%N with 1000%N.
    rewrite N.mod_small by lia. lia. }
  assert (Hlen : String.length (repr_f 3 t)
                 = (String.length sgn + String.length ip + 4)%nat).
  { rewrite Hbody, !length_append. cbn [String.length]. rewrite Hfl. lia. }
  repeat apply conj.
  - unfold format_f, rjust. now rewrite Hbody.
  - apply all_chars_replicate. reflexivity.
  - reflexivity.
  - apply canonical_str_N.
  - apply fixed_digits_all_digits.
  - exact Hfl.
  - rewrite Hip, Hfr.
    replace (K / 1000 * 1000 + K mod 1000) with K
      by (pose proof (Z.div_mod K 1000 ltac:(lia)); lia).
    exact Hnear.
  - rewrite length_replicate, Hlen. reflexivity.
  - intros Hneg Hlt. unfold format_f. apply rjust_fits. rewrite Hlen.
    unfold sgn. rewrite Hneg. cbn [String.length].
    assert (String.length ip <= 5)%nat; [|lia].
    apply str_N_length_le. change (10 ^ N.of_nat 5)%N with 100000%N. lia.
Qed.

Lemma format_line_template s :
  is_finite (now s) = true -> line_template s (format_line s).
Proof.
  intros Hfin. unfold line_template, format_line.
  destruct (wrect s) as [[[w0 w1] w2] w3].
  destruct (crect s) as [[[c0 c1] c2] c3].
  exists (format_f 9 3 (now s)), (format_d 5 (mx s)), (format_d 5 (my s)),
         (format_d 5 w0), (format_d 5 w1), (format_d 5 w2), (format_d 5 w3),
         (format_d 5 c0), (format_d 5 c1), (format_d 5 c2), (format_d 5 c3),
         (format_d 5 (relx s)), (format_d 5 (rely s)).
  split; [reflexivity|].
  split; [now apply time_field_format_f|].
  repeat apply conj; apply int_field_format_d.
Qed.

End LineFacts.

(** ** The OS query functions *)

Import Py Win32 PyStr PyFloat Tracker Spec Outcome Scenario.

(** Unfolds the monad and the query functions. *)
Ltac unfold_tick :=
  cbv beta iota zeta delta
    [_tick tick_body reschedule py_int stop set_stop set_hwnd in_world lift
     bind ret raise get modify try_except of_result is_Exception
     get_cursor_pos get_window_rect get_client_rect_screen screen_to_client
     get_window_dpi root_winfo_id call print eprint root_after root_quit
     fire pop_timer report_callback_exception
     self world interval _stop hwnd stdout stderr timers calls quit fst snd].

(** Follows every branch the operating system can take. *)
Ltac branches :=
  repeat match goal with
         | |- context [match ?e with _ => _ end] =>
             lazymatch e with
             | context [match _ with _ => _ end] => fail
             | _ => destruct e eqn:?
             end
         end.


(** Runs a computation along the branch that the facts at hand select. *)
Ltac run_with_facts :=
  unfold_tick;
  repeat (progress (unfold py_not;
                    cbn [negb truthy hwnd_value is_OSError Z.eqb];
                    repeat match goal with
                           | E : ?a = _ |- context [?a] => rewrite E
                           end);
          unfold_tick).

Section AdapterFacts.

(** C4. When [GetClientRect] and [ClientToScreen] both succeed,
    [get_client_rect_screen] returns [(left, top, left + width, top + height)]
    with [(left, top)] the client origin on the screen and the width and
    height those of the raw client rectangle; so [right - left] and
    [bottom - top] of the result are the raw client width and height. *)
Theorem C4_client_rect_on_screen (os : OS) (h : Z) (w : World)
        (ok1 ok2 : BOOL) (rc : RECT) (pt : POINT) :
  GetClientRect os h RECT_0 = (ok1, rc) -> ok1 <> 0 ->
  ClientToScreen os h (POINT_ 0 0) = (ok2, pt) -> ok2 <> 0 ->
  let width := right rc - left rc in
  let height := bottom rc - top rc in
  exists l t r b,
    fst (get_client_rect_screen os h w) = Ok (l, t, r, b)
    /\ (l, t, r, b) = (x pt, y pt, x pt + width, y pt + height)
    /\ r - l = width
    /\ b - t = height.
Proof.
  intros E1 H1 E2 H2 width height.
  exists (x pt), (y pt), (x pt + width), (y pt + height).
  unfold get_client_rect_screen. unfold_tick.
  rewrite E1. apply Z.eqb_neq in H1. unfold py_not. rewrite H1.
  rewrite E2. apply Z.eqb_neq in H2. rewrite H2.
  repeat apply conj; [reflexivity | reflexivity | lia | lia].
Qed.

Lemma C4_client_rect_on_screen_witness :
  exists l t r b,
    fst (get_client_rect_screen os_ok 1234 world0) = Ok (l, t, r, b)
    /\ (l, t, r, b) = (208, 231, 208 + 384, 231 + 201)
    /\ r - l = 384
    /\ b - t = 201.
Proof.
  apply (C4_client_rect_on_screen os_ok 1234 world0 1 1
           (mkRECT 0 0 384 201) (mkPOINT 208 231));
    [reflexivity | lia | reflexivity | lia].
Defined.

(** C8. [get_window_dpi] never raises: whatever [GetDpiForWindow] does,
    the result is the integer it returned, or [None] when it raised. *)
Theorem C8_window_dpi_total (os : OS) (h : Z) (w : World) :
  exists (v : option Z) (w' : World),
    get_window_dpi os h w = (Ok v, w')
    /\ v = match GetDpiForWindow os h with
           | Ok d => Some d
           | Raise _ => None
           end
    /\ stdout w' = stdout w /\ stderr w' = stderr w /\ timers w' = timers w.
Proof.
  unfold_tick. destruct (GetDpiForWindow os h) as [d|e];
    eexists; eexists; repeat apply conj; reflexivity.
Qed.

Example window_dpi_unsupported :
  fst (get_window_dpi os_no_dpi 1234 world0) = Ok None
  /\ fst (get_window_dpi os_ok 1234 world0) = Ok (Some 144).
Proof. split; reflexivity. Qed.

End AdapterFacts.

(** ** The sample line, continued *)

Section SampleLine.

(** A line of the fixed layout is 128 characters long. *)
Lemma line_template_fixed_length line :
  line_template_fixed line -> String.length line = 128%nat.
Proof.
  intros (T & X & Y & W0 & W1 & W2 & W3 & C0 & C1 & C2 & C3 & RX & RY
          & -> & HT & HF).
  repeat match goal with
         | H : Forall _ (_ :: _) |- _ =>
             let a := fresh "L" in
             apply Forall_cons_iff in H; destruct H as [a H]
         end.
  rewrite !length_append. cbn [String.length]. lia.
Qed.

(** C5. The line is a function of the fields of the sample: samples with
    the same fields give the same line; and the line follows the template,
    the groups two spaces apart under their labels: the timestamp
    right-justified in a field of at least nine characters, to the nearest
    thousandth with exactly three decimals, and every integer
    right-justified in a field of at least five characters.  The fields
    are exactly that wide for the integers -9999..99999 and for the times
    from 0 that print below 100000.000; a longer number widens its
    field. *)
Theorem C5_format_line (s s' : Sample) :
  is_finite (now s) = true ->
  (now s' = now s -> mx s' = mx s -> my s' = my s ->
   wrect s' = wrect s -> crect s' = crect s ->
   relx s' = relx s -> rely s' = rely s ->
   format_line s' = format_line s)
  /\ line_template s (format_line s).
Proof.
  intros Hfin. split.
  - destruct s, s'; simpl. intros; subst. reflexivity.
  - now apply format_line_template.
Qed.

Lemma C5_format_line_witness :
  (now sample_ok = now sample_ok -> mx sample_ok = mx sample_ok ->
   my sample_ok = my sample_ok ->
   wrect sample_ok = wrect sample_ok -> crect sample_ok = crect sample_ok ->
   relx sample_ok = relx sample_ok -> rely sample_ok = rely sample_ok ->
   format_line sample_ok = format_line sample_ok)
  /\ line_template sample_ok (format_line sample_ok).
Proof.
  apply (C5_format_line sample_ok sample_ok). vm_compute. reflexivity.
Defined.

(** C5, as the specification words it, fails: the fields are not always
    five and nine characters wide.  The coordinates of a minimized window
    (-32000) take six characters, the time of a machine up for more than
    100000 s takes ten, and the lines of these samples do not fit the
    fixed layout. *)
Lemma C5_counterexample :
  format_d 5 (-32000) = "-32000"%string
  /\ format_f 9 3 100000.5 = "100000.500"%string
  /\ is_finite (now sample_minimized) = true
  /\ ~ line_template_fixed (format_line sample_minimized)
  /\ is_finite (now sample_long_uptime) = true
  /\ ~ line_template_fixed (format_line sample_long_uptime).
Proof.
  repeat apply conj; try (vm_compute; reflexivity);
    intros H; apply line_template_fixed_length in H;
    vm_compute in H; discriminate H.
Qed.

Example format_line_sample_ok :
  format_line sample_ok
  = "t=   12.345  mouse=(  640,  480)  win=[  200,  200,  600,  440]  client=[  208,  231,  592,  432]  mouse_in_client=(  432,  249)"%string.
Proof. vm_compute. reflexivity. Qed.

Example format_line_sample_minimized :
  format_line sample_minimized
  = "t=   12.345  mouse=(  640,  480)  win=[-32000,-32000,-31840,-31972]  client=[-32000,-32000,-32000,-32000]  mouse_in_client=(32640,32480)"%string.
Proof. vm_compute. reflexivity. Qed.

End SampleLine.

(** ** One tick *)

Section TickFacts.

Lemma tick_body_frame os st :
  let r := tick_body os st in
  interval (self (snd r)) = interval (self st)
  /\ _stop (self (snd r)) = _stop (self st)
  /\ stderr (world (snd r)) = stderr (world st)
  /\ timers (world (snd r)) = timers (world st)
  /\ quit (world (snd r)) = quit (world st)
  /\ match fst r with
     | Ok _ => exists line, stdout (world (snd r)) = stdout (world st) ++ [line]
     | Raise _ => stdout (world (snd r)) = stdout (world st)
     end.
Proof.
  destruct st as [[iv sp h] [so se tm cl q]].
  unfold_tick. branches; unfold_tick; repeat apply conj; try reflexivity; eauto.
Qed.

(** The [try] statement of [_tick] never raises: when its body returns
    the sample line is printed, when its body raises the error line is,
    and neither the timers nor the application's interval and stop flag
    are touched. *)
Lemma tick_try_run os st :
  exists st1,
    tick_try os st = (Ok tt, st1)
    /\ interval (self st1) = interval (self st)
    /\ _stop (self st1) = _stop (self st)
    /\ timers (world st1) = timers (world st)
    /\ quit (world st1) = quit (world st)
    /\ match fst (tick_body os st) with
       | Ok _ =>
           st1 = snd (tick_body os st)
           /\ (exists line, stdout (world st1) = stdout (world st) ++ [line])
           /\ stderr (world st1) = stderr (world st)
       | Raise e =>
           stdout (world st1) = stdout (world st)
           /\ stderr (world st1)
              = stderr (world st) ++ ["[error] " +++ str_exn e]
       end.
Proof.
  pose proof (tick_body_frame os st) as F. cbv zeta in F.
  unfold tick_try, try_except.
  destruct (tick_body os st) as [[[]|e] st1]; cbn [fst snd] in *.
  - exists st1. destruct F as (F1 & F2 & F3 & F4 & F5 & line & F6).
    repeat apply conj; auto. exists line. auto.
  - destruct F as (F1 & F2 & F3 & F4 & F5 & F6).
    unfold is_Exception, in_world, lift, eprint, modify.
    eexists. split; [reflexivity|]. cbn [self world stdout stderr timers quit].
    repeat apply conj; auto. now rewrite F3.
Qed.

(** [_tick] in the Running state is the [try] statement followed by the
    rescheduling. *)
Lemma tick_running os st :
  _stop (self st) = false ->
  _tick os st = bind (tick_try os) (fun _ => reschedule) st.
Proof. intros H. unfold _tick, bind at 1, get. now rewrite H. Qed.

Lemma reschedule_run st :
  reschedule st
  = match delay_ms st with
    | IntOk ms =>
        (Ok tt, mkState (self st)
                  (mkWorld (stdout (world st)) (stderr (world st))
                           (timers (world st) ++ [ms]) (calls (world st))
                           (quit (world st))))
    | IntOverflow =>
        (Raise (OverflowError "cannot convert float infinity to integer"), st)
    | IntNaN => (Raise (ValueError "cannot convert float NaN to integer"), st)
    end.
Proof.
  unfold delay_ms. destruct st as [[iv sp h] [so se tm cl q]]. unfold_tick.
  destruct (int_of_float (iv * 1000)); reflexivity.
Qed.

(** Whatever the operating system answers, a Running tick whose delay is
    an integer returns normally, prints exactly one line, on one of the
    two streams, and leaves exactly one more callback pending. *)
Lemma tick_running_finite os st ms :
  running st -> delay_ms st = IntOk ms ->
  exists st',
    _tick os st = (Ok tt, st')
    /\ timers (world st') = timers (world st) ++ [ms]
    /\ match fst (tick_body os st) with
       | Ok _ =>
           (exists line, stdout (world st') = stdout (world st) ++ [line])
           /\ stdout (world st') = stdout (world (snd (tick_body os st)))
           /\ stderr (world st') = stderr (world st)
       | Raise e =>
           stdout (world st') = stdout (world st)
           /\ stderr (world st')
              = stderr (world st) ++ ["[error] " +++ str_exn e]
       end.
Proof.
  intros Hrun Hms. rewrite (tick_running os st Hrun).
  destruct (tick_try_run os st) as (st1 & E & Hi & Hs & Ht & Hq & Hout).
  unfold bind. rewrite E. rewrite reschedule_run.
  assert (Hd : delay_ms st1 = IntOk ms) by (unfold delay_ms in *; now rewrite Hi).
  rewrite Hd. eexists. split; [reflexivity|].
  cbn [self world stdout stderr timers]. rewrite Ht. split; [reflexivity|].
  destruct (fst (tick_body os st)).
  - destruct Hout as (-> & Hline & Herr). auto.
  - exact Hout.
Qed.

(** The streams after a Running tick are those after its [try]
    statement, whether or not the rescheduling raises. *)
Lemma tick_running_streams os st :
  running st ->
  stdout (world (after_tick os st)) = stdout (world (snd (tick_try os st)))
  /\ stderr (world (after_tick os st)) = stderr (world (snd (tick_try os st)))
  /\ calls (world (after_tick os st)) = calls (world (snd (tick_try os st))).
Proof.
  intros Hrun. unfold after_tick. rewrite (tick_running os st Hrun).
  destruct (tick_try_run os st) as (st1 & E & _).
  unfold bind. rewrite E. rewrite reschedule_run. cbn [snd].
  destruct (delay_ms st1); repeat apply conj; reflexivity.
Qed.

End TickFacts.

(** ** Which branch a tick takes *)

Section TickBranches.


(** With no handle to be had and the cursor readable, the body asks for
    the handle and the cursor only, and prints the sample with the zero
    rectangles and the zero relative position. *)
Lemma tick_body_no_handle os st ok p :
  truthy (hwnd (self st)) = false -> winfo_id os = Ok 0 ->
  GetCursorPos os (POINT_ 0 0) = (ok, p) -> ok <> 0 ->
  fst (tick_body os st) = Ok tt
  /\ stdout (world (snd (tick_body os st)))
     = stdout (world st)
       ++ [format_line (mkSample (perf_counter os) (x p) (y p)
                                 zero_rect zero_rect 0 0)]
  /\ calls (world (snd (tick_body os st)))
     = calls (world st) ++ [CallWinfoId; CallGetCursorPos].
Proof.
  destruct st as [[iv sp h] [so se tm cl q]]. cbn [self hwnd world stdout calls].
  intros Hh Hwin Ec Hok. apply Z.eqb_neq in Hok.
  run_with_facts.
  repeat apply conj; try reflexivity.
  now rewrite <- app_assoc.
Qed.

(** When the cursor and both rectangles are read, the body prints the
    sample made of what was read; the relative position is what
    [ScreenToClient] gives, or (0, 0) when that call fails. *)
Lemma tick_body_sample os st h okc pc okw rw okr rc oks ps okt pt :
  resolved_handle os st = Ok h -> h <> 0 ->
  GetCursorPos os (POINT_ 0 0) = (okc, pc) -> okc <> 0 ->
  GetWindowRect os h RECT_0 = (okw, rw) -> okw <> 0 ->
  GetClientRect os h RECT_0 = (okr, rc) -> okr <> 0 ->
  ClientToScreen os h (POINT_ 0 0) = (oks, ps) -> oks <> 0 ->
  ScreenToClient os h (POINT_ (x pc) (y pc)) = (okt, pt) ->
  fst (tick_body os st) = Ok tt
  /\ stdout (world (snd (tick_body os st)))
     = stdout (world st)
       ++ [format_line
             (mkSample (perf_counter os) (x pc) (y pc)
                (left rw, top rw, right rw, bottom rw)
                (x ps, y ps, x ps + (right rc - left rc),
                 y ps + (bottom rc - top rc))
                (if okt =? 0 then 0 else x pt)
                (if okt =? 0 then 0 else y pt))].
Proof.
  unfold resolved_handle.
  destruct st as [[iv sp h0] [so se tm cl q]]. cbn [self hwnd world stdout].
  intros Hres Hnz Ec Hc Ew Hw Er Hr Es Hs Et.
  apply Z.eqb_neq in Hc, Hw, Hr, Hs, Hnz.
  destruct (okt =? 0) eqn:Ht; destruct (truthy h0) eqn:Hh;
    try (injection Hres as Hres); run_with_facts; split; reflexivity.
Qed.

End TickBranches.

(** ** The claims about a tick *)

Section TickClaims.

Lemma tick_stopped os st :
  _stop (self st) = true -> _tick os st = (Ok tt, st).
Proof. intros H. unfold _tick, bind, get, ret. now rewrite H. Qed.

(** A timer event in the Stopped state only takes the callback off the
    queue. *)
Lemma fire_stopped os st :
  _stop (self st) = true ->
  fire os st
  = (Ok tt, mkState (self st)
              (mkWorld (stdout (world st)) (stderr (world st))
                       (tl (timers (world st))) (calls (world st))
                       (quit (world st)))).
Proof.
  intros H. destruct st as [app [so se tm cl q]].
  unfold fire, pop_timer, bind at 1 2, get, ret, in_world, lift, modify.
  cbn [world timers self stdout stderr calls quit].
  destruct tm as [|d rest]; [reflexivity|].
  unfold bind, try_except. now rewrite tick_stopped.
Qed.

Lemma skipn_S_tl {A} n (l : list A) : skipn (S n) l = skipn n (tl l).
Proof. destruct l; simpl; [now rewrite skipn_nil | reflexivity]. Qed.

(** C3. A tick that finds the stop flag set does nothing: no OS query,
    no output, no further tick scheduled; so from then on the pending
    callbacks only run out, and nothing more is printed.  [stop] sets the
    flag. *)
Theorem C3_stopped_tick_is_noop (st : State) (os : OS) (oss : list OS) :
  _stop (self st) = true ->
  _tick os st = (Ok tt, st)
  /\ (exists st',
        fire_all oss st = (Ok tt, st')
        /\ self st' = self st
        /\ stdout (world st') = stdout (world st)
        /\ stderr (world st') = stderr (world st)
        /\ calls (world st') = calls (world st)
        /\ timers (world st') = skipn (List.length oss) (timers (world st)))
  /\ (forall st0, _stop (self (snd (stop st0))) = true
                  /\ quit (world (snd (stop st0))) = true).
Proof.
  intros Hstop.
  split; [now apply tick_stopped|]. split.
  - revert st Hstop. induction oss as [|o oss IH]; intros st Hstop.
    + exists st. cbn. repeat apply conj; reflexivity.
    + cbn [fire_all]. unfold bind at 1. rewrite (fire_stopped o st Hstop).
      destruct (IH (mkState (self st)
                      (mkWorld (stdout (world st)) (stderr (world st))
                               (tl (timers (world st))) (calls (world st))
                               (quit (world st)))) Hstop)
        as (st' & E & Hs & Ho & He & Hc & Ht).
      exists st'. cbn [self world stdout stderr calls timers] in *.
      cbn [List.length]. rewrite skipn_S_tl. repeat apply conj; auto.
  - intros [[iv sp h] [so se tm cl q]]. unfold_tick. split; reflexivity.
Qed.

Lemma C3_stopped_tick_is_noop_witness :
  let st := snd (stop st_running) in
  _tick os_ok st = (Ok tt, st)
  /\ (exists st',
        fire_all [os_ok; os_ok] st = (Ok tt, st')
        /\ self st' = self st
        /\ stdout (world st') = stdout (world st)
        /\ stderr (world st') = stderr (world st)
        /\ calls (world st') = calls (world st)
        /\ timers (world st') = skipn 2 (timers (world st)))
  /\ (forall st0, _stop (self (snd (stop st0))) = true
                  /\ quit (world (snd (stop st0))) = true).
Proof.
  apply (C3_stopped_tick_is_noop (snd (stop st_running)) os_ok [os_ok; os_ok]).
  reflexivity.
Defined.

Lemma tick_try_ok os st :
  fst (tick_body os st) = Ok tt ->
  tick_try os st = (Ok tt, snd (tick_body os st)).
Proof.
  unfold tick_try, try_except. destruct (tick_body os st) as [[[]|e] st1];
    cbn [fst snd]; [reflexivity | discriminate].
Qed.




(** With no handle stored and a window that raises when asked for one,
    the body of a tick raises at once, before any query. *)
Lemma tick_body_handle_raises os st e :
  truthy (hwnd (self st)) = false -> winfo_id os = Raise e ->
  fst (tick_body os st) = Raise e
  /\ calls (world (snd (tick_body os st))) = calls (world st) ++ [CallWinfoId].
Proof.
  destruct st as [[iv sp h] [so se tm cl q]]. cbn [self hwnd world calls].
  intros Hh Hwin. run_with_facts. split; reflexivity.
Qed.

(** C7, in the code. In a Running tick with no handle stored and a
    window that cannot be asked for one ([winfo_id] raises, as it did in
    the constructor), the handle is unavailable, yet no sample line is
    printed: the tick writes the error line and asks for nothing else, not
    even the cursor.  The zero rectangles of lines 160-165 are not
    reached. *)
Theorem C7_unresolved_handle_no_sample (os : OS) (st : State) (e : exn) :
  running st -> truthy (hwnd (self st)) = false -> winfo_id os = Raise e ->
  handle_unavailable os st
  /\ stdout (world (after_tick os st)) = stdout (world st)
  /\ stderr (world (after_tick os st))
     = stderr (world st) ++ ["[error] " +++ str_exn e]
  /\ calls (world (after_tick os st)) = calls (world st) ++ [CallWinfoId].
Proof.
  intros Hrun Hh Hwin.
  split; [unfold handle_unavailable; rewrite Hwin; auto|].
  destruct (tick_running_streams os st Hrun) as (-> & -> & ->).
  destruct (tick_body_handle_raises os st e Hh Hwin) as (Hr & Hc).
  destruct (tick_try_run os st) as (st1 & E & _ & _ & _ & _ & Hout).
  rewrite Hr in Hout. destruct Hout as (Hso & Hse).
  rewrite E. cbn [snd]. repeat apply conj; auto.
  pose proof (f_equal (fun r => calls (world (snd r))) E) as Ec.
  cbn [snd] in Ec. rewrite <- Ec. unfold tick_try, try_except.
  destruct (tick_body os st) as [[[]|e'] [app [so se tm cl q]]];
    cbn [fst snd world calls] in *; [discriminate Hr | exact Hc].
Qed.

Lemma C7_unresolved_handle_no_sample_witness :
  handle_unavailable os_window_unrealized st_no_handle
  /\ stdout (world (after_tick os_window_unrealized st_no_handle))
     = stdout (world st_no_handle)
  /\ stderr (world (after_tick os_window_unrealized st_no_handle))
     = stderr (world st_no_handle)
       ++ ["[error] " +++ str_exn (TclError "bad window path name")]
  /\ calls (world (after_tick os_window_unrealized st_no_handle))
     = calls (world st_no_handle) ++ [CallWinfoId].
Proof.
  apply (C7_unresolved_handle_no_sample os_window_unrealized st_no_handle
           (TclError "bad window path name")); reflexivity.
Defined.

(** The whole run at that input: the constructor leaves the handle
    unset, and the first tick prints the error line only, although the
    cursor could be read. *)
Example unrealized_window_run :
  let st := snd (main os_window_unrealized (argv_of "0.1")
                   [Timer os_window_unrealized]) in
  hwnd (self st) = None
  /\ stdout (world st) = [banner]
  /\ stderr (world st) = ["[error] bad window path name"%string]
  /\ calls (world st) = [CallWinfoId; CallWinfoId]
  /\ timers (world st) = [100].
Proof. vm_compute. repeat apply conj; reflexivity. Qed.

(** X20. Where the window answers 0 for its handle, the fallback of
    lines 160-165 is reached: if the cursor can be read, the Running tick
    prints the sample line with the window and client rectangles
    (0,0,0,0) and the relative position (0,0), and makes no rectangle or
    translation query. *)
Theorem zero_handle_zero_sample (os : OS) (st : State) (ok : BOOL) (p : POINT) :
  running st ->
  truthy (hwnd (self st)) = false -> winfo_id os = Ok 0 ->
  GetCursorPos os (POINT_ 0 0) = (ok, p) -> ok <> 0 ->
  stdout (world (after_tick os st))
  = stdout (world st)
    ++ [format_line (mkSample (perf_counter os) (x p) (y p)
                              zero_rect zero_rect 0 0)]
  /\ stderr (world (after_tick os st)) = stderr (world st)
  /\ calls (world (after_tick os st))
     = calls (world st) ++ [CallWinfoId; CallGetCursorPos].
Proof.
  intros Hrun Hh Hwin Ec Hok.
  destruct (tick_running_streams os st Hrun) as (Ho & He & Hc).
  destruct (tick_body_no_handle os st ok p Hh Hwin Ec Hok) as (Hr & Hso & Hcl).
  rewrite Ho, He, Hc, (tick_try_ok os st Hr). cbn [snd].
  repeat apply conj; auto.
  pose proof (tick_body_frame os st) as F. cbv zeta in F. tauto.
Qed.

Lemma zero_handle_zero_sample_witness :
  stdout (world (after_tick os_no_window st_no_handle))
  = stdout (world st_no_handle)
    ++ [format_line (mkSample (perf_counter os_no_window) 640 480
                              zero_rect zero_rect 0 0)]
  /\ stderr (world (after_tick os_no_window st_no_handle))
     = stderr (world st_no_handle)
  /\ calls (world (after_tick os_no_window st_no_handle))
     = calls (world st_no_handle) ++ [CallWinfoId; CallGetCursorPos].
Proof.
  apply (zero_handle_zero_sample os_no_window st_no_handle 1 (mkPOINT 640 480));
    first [reflexivity | lia].
Defined.

(** X2. When only the translation of the cursor into the client area
    fails, the Running tick still prints its sample line, with (0, 0) for
    the relative position and the rectangles as read, and nothing goes to
    the error stream. *)
Theorem translation_failure_zero_position
        (os : OS) (st : State) (h : Z)
        (okc okw okr oks : BOOL) (pc ps : POINT) (rw rc : RECT) :
  running st ->
  resolved_handle os st = Ok h -> h <> 0 ->
  GetCursorPos os (POINT_ 0 0) = (okc, pc) -> okc <> 0 ->
  GetWindowRect os h RECT_0 = (okw, rw) -> okw <> 0 ->
  GetClientRect os h RECT_0 = (okr, rc) -> okr <> 0 ->
  ClientToScreen os h (POINT_ 0 0) = (oks, ps) -> oks <> 0 ->
  translation_fails os h (x pc) (y pc) ->
  stdout (world (after_tick os st))
  = stdout (world st)
    ++ [format_line
          (mkSample (perf_counter os) (x pc) (y pc)
             (left rw, top rw, right rw, bottom rw)
             (x ps, y ps, x ps + (right rc - left rc),
              y ps + (bottom rc - top rc))
             0 0)]
  /\ stderr (world (after_tick os st)) = stderr (world st).
Proof.
  intros Hrun Hres Hnz Ec Hc Ew Hw Er Hr Es Hs Ht.
  unfold translation_fails in Ht.
  destruct (ScreenToClient os h (POINT_ (x pc) (y pc))) as [okt pt] eqn:Et.
  cbn [fst] in Ht. subst okt.
  destruct (tick_running_streams os st Hrun) as (Ho & He & _).
  destruct (tick_body_sample os st h okc pc okw rw okr rc oks ps 0 pt
              Hres Hnz Ec Hc Ew Hw Er Hr Es Hs Et) as (Hok & Hso).
  rewrite Ho, He, (tick_try_ok os st Hok). cbn [snd].
  split; [exact Hso|].
  pose proof (tick_body_frame os st) as F. cbv zeta in F. tauto.
Qed.

(** X4. When every query of a Running tick succeeds, the line printed is
    the sample of what was read: the cursor, the window rectangle, the
    client rectangle on the screen, the cursor relative to the client
    area, at the time of the clock; nothing goes to the error stream. *)
Theorem tick_prints_sample_read
        (os : OS) (st : State) (h : Z)
        (okc okw okr oks okt : BOOL) (pc ps pt : POINT) (rw rc : RECT) :
  running st ->
  resolved_handle os st = Ok h -> h <> 0 ->
  GetCursorPos os (POINT_ 0 0) = (okc, pc) -> okc <> 0 ->
  GetWindowRect os h RECT_0 = (okw, rw) -> okw <> 0 ->
  GetClientRect os h RECT_0 = (okr, rc) -> okr <> 0 ->
  ClientToScreen os h (POINT_ 0 0) = (oks, ps) -> oks <> 0 ->
  ScreenToClient os h (POINT_ (x pc) (y pc)) = (okt, pt) -> okt <> 0 ->
  stdout (world (after_tick os st))
  = stdout (world st)
    ++ [format_line
          (mkSample (perf_counter os) (x pc) (y pc)
             (left rw, top rw, right rw, bottom rw)
             (x ps, y ps, x ps + (right rc - left rc),
              y ps + (bottom rc - top rc))
             (x pt) (y pt))]
  /\ stderr (world (after_tick os st)) = stderr (world st).
Proof.
  intros Hrun Hres Hnz Ec Hc Ew Hw Er Hr Es Hs Et Ht.
  destruct (tick_running_streams os st Hrun) as (Ho & He & _).
  destruct (tick_body_sample os st h okc pc okw rw okr rc oks ps okt pt
              Hres Hnz Ec Hc Ew Hw Er Hr Es Hs Et) as (Hok & Hso).
  apply Z.eqb_neq in Ht. rewrite Ht in Hso.
  rewrite Ho, He, (tick_try_ok os st Hok). cbn [snd].
  split; [exact Hso|].
  pose proof (tick_body_frame os st) as F. cbv zeta in F. tauto.
Qed.

Lemma tick_prints_sample_read_witness :
  stdout (world (after_tick os_ok st_running))
  = stdout (world st_running)
    ++ [format_line
          (mkSample (perf_counter os_ok) 640 480
             (200, 200, 600, 440)
             (208, 231, 208 + (384 - 0), 231 + (201 - 0))
             432 249)]
  /\ stderr (world (after_tick os_ok st_running)) = stderr (world st_running).
Proof.
  apply (tick_prints_sample_read os_ok st_running 1234 1 1 1 1 1
           (mkPOINT 640 480) (mkPOINT 208 231) (mkPOINT 432 249)
           (mkRECT 200 200 600 440) (mkRECT 0 0 384 201));
    first [reflexivity | lia].
Defined.

Example tick_os_ok_line :
  stdout (world (after_tick os_ok st_running))
  = ["t=   12.345  mouse=(  640,  480)  win=[  200,  200,  600,  440]  client=[  208,  231,  592,  432]  mouse_in_client=(  432,  249)"%string].
Proof. vm_compute. reflexivity. Qed.

End TickClaims.

(** ** Comparison of floats *)

Section FloatOrder.

Lemma SFcompare_antisym a b :
  SFcompare b a = option_map CompOpp (SFcompare a b).
Proof.
  destruct a as [sa|sa| |sa ma ea], b as [sb|sb| |sb mb eb];
    try destruct sa; try destruct sb; try reflexivity;
    cbn [SFcompare option_map]; f_equal;
    rewrite (Z.compare_antisym ea eb);
    destruct (ea ?= eb); cbn [CompOpp]; try reflexivity;
    change (Pos.compare_cont Eq mb ma) with (Pos.compare mb ma);
    change (Pos.compare_cont Eq ma mb) with (Pos.compare ma mb);
    rewrite (Pos.compare_antisym ma mb); try reflexivity;
    now rewrite CompOpp_involutive.
Qed.

Lemma leb_not_ltb (a b : float) :
  PrimFloat.leb b a = true -> PrimFloat.ltb a b = false.
Proof.
  rewrite leb_spec, ltb_spec. unfold SFleb, SFltb.
  rewrite (SFcompare_antisym (Prim2SF b) (Prim2SF a)).
  destruct (SFcompare (Prim2SF b) (Prim2SF a)) as [[]|]; cbn; congruence.
Qed.

Lemma ltb_leb (a b : float) :
  PrimFloat.ltb a b = true -> PrimFloat.leb a b = true.
Proof.
  rewrite leb_spec, ltb_spec. unfold SFleb, SFltb.
  destruct (SFcompare (Prim2SF a) (Prim2SF b)) as [[]|]; congruence.
Qed.

(** The interval is never below the floor, whatever was asked for. *)
Lemma py_max_floor (v : float) : PrimFloat.leb 0.01 (py_max 0.01 v) = true.
Proof.
  unfold py_max. destruct (PrimFloat.ltb 0.01 v) eqn:H.
  - now apply ltb_leb.
  - vm_compute. reflexivity.
Qed.

Lemma py_max_clamps (v : float) :
  PrimFloat.leb v 0.01 = true -> py_max 0.01 v = 0.01%float.
Proof.
  intros H. unfold py_max. now rewrite (leb_not_ltb 0.01 v H).
Qed.

Lemma nonpositive_below_floor (v : float) :
  PrimFloat.leb v 0 = true -> PrimFloat.leb v 0.01 = true.
Proof.
  rewrite !leb_spec.
  set (z := Prim2SF 0). vm_compute in z. subst z.
  set (c := Prim2SF 0.01). vm_compute in c. subst c.
  unfold SFleb.
  destruct (Prim2SF v) as [s|s| |s m e]; try destruct s;
    cbv beta iota delta [SFcompare]; intros H;
    try reflexivity; discriminate H.
Qed.

End FloatOrder.

(** ** Start-up: the interval argument and the construction *)

Ltac unfold_setup :=
  cbv beta iota zeta delta
    [main_setup main_setup_with parse_interval parse_interval_with
     __init__ get_window_dpi root_winfo_id
     bind ret raise get modify try_except of_result is_Exception is_ValueError
     call print eprint root_after
     stdout stderr timers calls quit fst snd].

Section Setup.

(** The construction never raises: it fixes the interval at
    [max(0.01, interval_sec)], prints the banner, writes nothing to the
    error stream and schedules the first tick at once. *)
Lemma init_run os iv w :
  exists h w',
    __init__ os iv w = (Ok (mkTrackerApp (py_max 0.01 iv) false h), w')
    /\ stderr w' = stderr w
    /\ timers w' = timers w ++ [0]
    /\ quit w' = quit w
    /\ exists lines, stdout w' = stdout w ++ banner :: lines.
Proof.
  destruct w as [so se tm cl q]. unfold_setup.
  destruct (winfo_id os) as [n|e]; cbn [truthy hwnd_value].
  - destruct (negb (n =? 0)).
    + destruct (GetDpiForWindow os n) as [d|e]; cbn [truthy hwnd_value].
      * destruct (negb (d =? 0)); eexists; eexists;
          (split; [reflexivity|]); cbn [stdout stderr timers quit];
          repeat apply conj; try reflexivity;
          rewrite <- ?app_assoc; eexists; reflexivity.
      * eexists; eexists; (split; [reflexivity|]);
          cbn [stdout stderr timers quit];
          repeat apply conj; try reflexivity; exists []; reflexivity.
    + eexists; eexists; (split; [reflexivity|]);
        cbn [stdout stderr timers quit];
        repeat apply conj; try reflexivity; exists []; reflexivity.
  - eexists; eexists; (split; [reflexivity|]);
      cbn [stdout stderr timers quit];
      repeat apply conj; try reflexivity; exists []; reflexivity.
Qed.

Lemma parse_interval_with_number float_ prog arg rest v w :
  float_ arg = Some v ->
  parse_interval_with float_ (prog :: arg :: rest) w = (Ok v, w).
Proof. intros H. unfold_setup. now rewrite H. Qed.

Lemma parse_interval_number prog arg rest v w :
  float_of_str arg = Some v ->
  parse_interval (prog :: arg :: rest) w = (Ok v, w).
Proof. apply parse_interval_with_number. Qed.

Lemma parse_interval_malformed prog arg rest w :
  float_of_str arg = None ->
  parse_interval (prog :: arg :: rest) w
  = (Ok 0.1%float,
     mkWorld (stdout w) (stderr w ++ [usage]) (timers w) (calls w) (quit w)).
Proof. intros H. unfold_setup. now rewrite H. Qed.

Lemma main_setup_with_number float_ os prog arg rest v :
  float_ arg = Some v ->
  exists app w,
    main_setup_with float_ os (prog :: arg :: rest) world0 = (Ok app, w)
    /\ interval app = py_max 0.01 v
    /\ _stop app = false
    /\ stderr w = []
    /\ timers w = [0].
Proof.
  intros H. unfold main_setup_with, bind.
  rewrite (parse_interval_with_number float_ prog arg rest v world0 H).
  destruct (init_run os v world0) as (h & w' & E & He & Ht & _).
  rewrite E. eexists; eexists. split; [reflexivity|].
  cbn [interval _stop]. repeat apply conj; auto.
Qed.

Lemma main_setup_number os prog arg rest v :
  float_of_str arg = Some v ->
  exists app w,
    main_setup os (prog :: arg :: rest) world0 = (Ok app, w)
    /\ interval app = py_max 0.01 v
    /\ _stop app = false
    /\ stderr w = []
    /\ timers w = [0].
Proof. apply main_setup_with_number. Qed.


(** *** The interval is fixed for the life of the process *)

Lemma tick_interval os st :
  interval (self (snd (_tick os st))) = interval (self st).
Proof.
  destruct (_stop (self st)) eqn:Hs.
  - now rewrite tick_stopped.
  - rewrite (tick_running os st Hs).
    destruct (tick_try_run os st) as (st1 & E & Hi & _).
    unfold bind. rewrite E, reschedule_run.
    destruct (delay_ms st1); cbn [snd self]; exact Hi.
Qed.

Lemma dispatch_interval ev st :
  interval (self (snd (dispatch ev st))) = interval (self st).
Proof.
  destruct ev as [os|]; cbn [dispatch].
  - destruct st as [app [so se tm cl q]].
    unfold fire, pop_timer, bind at 1 2, get, ret.
    cbn [world timers]. destruct tm as [|d rest]; [reflexivity|].
    unfold in_world at 1, lift, modify, bind at 1. cbn [world self stdout stderr calls quit].
    pose proof (tick_interval os (mkState app (mkWorld so se rest cl q))) as T.
    unfold bind, try_except.
    destruct (_tick os _) as [[[]|e] st1]; cbn [snd self] in *; [exact T|].
    unfold is_Exception, report_callback_exception, in_world, lift, bind,
      eprint, modify. cbn [snd self]. exact T.
  - destruct st as [[iv sp h] [so se tm cl q]]. unfold_tick. reflexivity.
Qed.

Lemma mainloop_interval evs : forall st,
  interval (self (snd (mainloop evs st))) = interval (self st).
Proof.
  induction evs as [|ev evs IH]; intros st; cbn [mainloop].
  - reflexivity.
  - unfold bind at 1, get. destruct (quit (world st)); [reflexivity|].
    unfold bind. pose proof (dispatch_interval ev st) as D.
    destruct (dispatch ev st) as [[[]|e] st1]; cbn [snd] in *.
    + now rewrite IH.
    + exact D.
Qed.

Lemma main_interval os argv evs app w :
  main_setup os argv world0 = (Ok app, w) ->
  interval (self (snd (main os argv evs))) = interval app.
Proof.
  intros E. unfold main. rewrite E. now rewrite mainloop_interval.
Qed.

End Setup.

(** ** The claims about the interval *)

Section IntervalClaims.

Example float_of_str_examples :
  float_of_str "0.05" = Some 0.05%float
  /\ float_of_str "abc" = None
  /\ float_of_str "0.001" = Some 0.001%float
  /\ float_of_str " 1_0.5e-1 " = Some 1.05%float
  /\ float_of_str "-Infinity" = Some neg_infinity
  /\ float_of_str "1e400" = Some infinity
  /\ float_of_str "0x10" = None
  /\ float_of_str "" = None.
Proof. vm_compute. repeat apply conj; reflexivity. Qed.


(** C10. Whatever the builtin [float] is on strings ([float_]; [None] is
    its [ValueError]): every argument it accepts, zero and negative numbers
    included, is taken without a word on the error stream, and the
    interval is [max(0.01, value)].  That is: the value itself when it is
    above 0.01, and 0.01 otherwise; so never below 0.01, and exactly 0.01
    for every value up to 0.01, hence for every value that is zero or
    negative. *)
Theorem C10_numeric_argument_clamped
        (float_ : string -> option float)
        (os : OS) (prog arg : string) (rest : list string) (v : float) :
  float_ arg = Some v ->
  exists app w,
    main_setup_with float_ os (prog :: arg :: rest) world0 = (Ok app, w)
    /\ stderr w = []
    /\ interval app = py_max 0.01 v
    /\ (PrimFloat.ltb 0.01 v = true -> interval app = v)
    /\ (PrimFloat.ltb 0.01 v = false -> interval app = 0.01%float)
    /\ PrimFloat.leb 0.01 (interval app) = true
    /\ (PrimFloat.leb v 0.01 = true -> interval app = 0.01%float)
    /\ (PrimFloat.leb v 0 = true -> interval app = 0.01%float).
Proof.
  intros H.
  destruct (main_setup_with_number float_ os prog arg rest v H)
    as (app & w & E & Hi & _ & He & _).
  exists app, w. rewrite Hi. repeat apply conj; auto.
  - intros L. unfold py_max. now rewrite L.
  - intros L. unfold py_max. now rewrite L.
  - apply py_max_floor.
  - apply py_max_clamps.
  - intros Hneg. apply py_max_clamps. now apply nonpositive_below_floor.
Qed.

(** The two sides of the floor with [float_of_str] for the builtin:
    "-2.5" is clamped to 0.01, "0.25" is kept. *)
Lemma C10_numeric_argument_clamped_witness :
  (exists app w,
     main_setup os_ok ("tracker_cli.py"%string :: "-2.5"%string :: []) world0
     = (Ok app, w)
     /\ stderr w = []
     /\ interval app = 0.01%float)
  /\ (exists app w,
        main_setup os_ok ("tracker_cli.py"%string :: "0.25"%string :: []) world0
        = (Ok app, w)
        /\ stderr w = []
        /\ interval app = 0.25%float).
Proof.
  split.
  - destruct (C10_numeric_argument_clamped float_of_str os_ok
                "tracker_cli.py" "-2.5" [] (-2.5)%float)
      as (app & w & E & He & _ & _ & Hlo & _); [vm_compute; reflexivity|].
    exists app, w. repeat apply conj; [exact E | exact He |].
    apply Hlo. vm_compute. reflexivity.
  - destruct (C10_numeric_argument_clamped float_of_str os_ok
                "tracker_cli.py" "0.25" [] 0.25%float)
      as (app & w & E & He & _ & Hhi & _); [vm_compute; reflexivity|].
    exists app, w. repeat apply conj; [exact E | exact He |].
    apply Hhi. vm_compute. reflexivity.
Defined.

Example zero_argument_clamped :
  float_of_str "0" = Some 0%float /\ py_max 0.01 0 = 0.01%float.
Proof. vm_compute. split; reflexivity. Qed.

End IntervalClaims.

(** ** Rescheduling *)

Section Rescheduling.

(** X1. A Running tick with a finite interval returns and leaves exactly
    one more callback pending, at [int(interval * 1000)] ms, whatever the OS
    queries did; it has printed either its sample line or an error line. *)
Theorem tick_schedules_exactly_one (os : OS) (st : State) (ms : Z) :
  running st -> delay_ms st = IntOk ms ->
  fst (_tick os st) = Ok tt
  /\ schedules_one os st ms
  /\ ((emits_sample os st
       /\ stderr (world (after_tick os st)) = stderr (world st))
      \/ (reports_error os st /\ emits_nothing os st)).
Proof.
  intros Hrun Hms.
  destruct (tick_running_finite os st ms Hrun Hms) as (st' & E & Ht & Hout).
  unfold schedules_one, emits_sample, reports_error, emits_nothing, after_tick.
  rewrite E. cbn [fst snd]. repeat apply conj; auto.
  destruct (fst (tick_body os st)) as [[]|e].
  - left. tauto.
  - right. destruct Hout as [Hso Hse]. split; [exists (str_exn e)|]; auto.
Qed.

Lemma tick_schedules_exactly_one_witness :
  fst (_tick os_ok st_running) = Ok tt
  /\ schedules_one os_ok st_running 100
  /\ ((emits_sample os_ok st_running
       /\ stderr (world (after_tick os_ok st_running))
          = stderr (world st_running))
      \/ (reports_error os_ok st_running /\ emits_nothing os_ok st_running)).
Proof.
  apply (tick_schedules_exactly_one os_ok st_running 100);
    [reflexivity | vm_compute; reflexivity].
Defined.

Lemma translation_failure_zero_position_witness :
  stdout (world (after_tick os_translation_denied st_running))
  = stdout (world st_running)
    ++ [format_line
          (mkSample (perf_counter os_translation_denied) 640 480
             (200, 200, 600, 440)
             (208, 231, 208 + (384 - 0), 231 + (201 - 0))
             0 0)]
  /\ stderr (world (after_tick os_translation_denied st_running))
     = stderr (world st_running).
Proof.
  apply (translation_failure_zero_position os_translation_denied st_running
           1234 1 1 1 1 (mkPOINT 640 480) (mkPOINT 208 231)
           (mkRECT 200 200 600 440) (mkRECT 0 0 384 201));
    first [reflexivity | lia].
Defined.

(** X3. The interval set at start-up is the interval after any run of
    the event loop. *)
Theorem interval_immutable (os : OS) (argv : list string) (evs : list event) :
  match main_setup os argv world0 with
  | (Ok app, _) => interval (self (snd (main os argv evs))) = interval app
  | (Raise _, _) => True
  end.
Proof.
  destruct (main_setup os argv world0) as [[app|e] w] eqn:E; [|exact I].
  exact (main_interval os argv evs app w E).
Qed.

(** With no callback pending a timer event finds nothing to run. *)
Lemma fire_idle os st : timers (world st) = [] -> fire os st = (Ok tt, st).
Proof.
  intros H. unfold fire, pop_timer, bind, get, ret. now rewrite H.
Qed.

Lemma fire_all_idle oss : forall st,
  timers (world st) = [] -> fire_all oss st = (Ok tt, st).
Proof.
  induction oss as [|o oss IH]; intros st H; cbn [fire_all]; [reflexivity|].
  unfold bind. rewrite (fire_idle o st H). now apply IH.
Qed.

(** C2, at [python tracker_cli.py inf]. The argument is accepted and the
    interval is infinite; the first tick then raises [OverflowError] at
    [int(self.interval * 1000)], after its [try] statement: Tk reports the
    exception, no callback is pending and the stop flag is clear, so no
    tick ever runs again, whatever timer events follow. *)
Theorem C2_infinite_interval_stalls (os os1 : OS) :
  exists app w,
    main_setup os (argv_of "inf") world0 = (Ok app, w)
    /\ interval app = infinity
    /\ timers w = [0]
    /\ fst (_tick os1 (mkState app (mkWorld (stdout w) (stderr w) []
                                            (calls w) (quit w))))
       = Raise (OverflowError "cannot convert float infinity to integer")
    /\ timers (world (snd (fire os1 (mkState app w)))) = []
    /\ _stop (self (snd (fire os1 (mkState app w)))) = false
    /\ (exists lines,
          stderr (world (snd (fire os1 (mkState app w))))
          = lines ++ ["Exception in Tkinter callback"%string;
                      "OverflowError: cannot convert float infinity to integer"%string])
    /\ forall oss,
         fire_all oss (snd (fire os1 (mkState app w)))
         = (Ok tt, snd (fire os1 (mkState app w))).
Proof.
  destruct (main_setup_number os "tracker_cli.py" "inf" [] infinity)
    as (app & w & E & Hi & Hs & He & Ht); [vm_compute; reflexivity|].
  assert (Hv : interval app = infinity) by (rewrite Hi; vm_compute; reflexivity).
  exists app, w. destruct w as [so se tm cl q]. cbn [timers stderr stdout calls quit] in *.
  subst tm.
  set (st0 := mkState app (mkWorld so se [] cl q)).
  assert (Hrun : running st0) by exact Hs.
  assert (Hd : delay_ms st0 = IntOverflow)
    by (unfold delay_ms, st0; cbn [self]; rewrite Hv; vm_compute; reflexivity).
  assert (Hfire : fire os1 (mkState app (mkWorld so se [0] cl q))
                  = try_except (_tick os1) is_Exception
                      report_callback_exception st0) by reflexivity.
  rewrite Hfire. unfold try_except.
  rewrite (tick_running os1 st0 Hrun).
  destruct (tick_try_run os1 st0) as (st1 & E1 & Hi1 & Hs1 & Ht1 & _).
  unfold bind at 1 2 3 4 5 6. rewrite E1, reschedule_run.
  assert (Hd1 : delay_ms st1 = IntOverflow)
    by (unfold delay_ms in *; now rewrite Hi1).
  rewrite Hd1. cbn [is_Exception fst].
  unfold report_callback_exception, in_world, lift, bind, eprint, modify.
  cbn [snd world self timers stderr class_name str_exn].
  repeat apply conj; auto.
  - rewrite Hs1. exact Hs.
  - exists (stderr (world st1)). now rewrite <- app_assoc.
  - intros oss. apply fire_all_idle. exact Ht1.
Qed.

(** C9, at [python tracker_cli.py inf] with the cursor query denied: the
    first tick prints the error line and no sample line, and then raises at
    the rescheduling, which Tk reports; no next tick is scheduled. *)
Theorem C9_infinite_interval_error_tick :
  let st := snd (main os_cursor_denied (argv_of "inf") [Timer os_cursor_denied]) in
  interval (self st) = infinity
  /\ _stop (self st) = false
  /\ stdout (world st) = [banner; dpi_line 144]
  /\ stderr (world st)
     = ["[error] GetCursorPos failed"%string;
        "Exception in Tkinter callback"%string;
        "OverflowError: cannot convert float infinity to integer"%string]
  /\ timers (world st) = [].
Proof. vm_compute. repeat apply conj; reflexivity. Qed.

(** The same at a finite interval whose product with 1000 is not:
    [python tracker_cli.py 1e306]. *)
Example large_interval_error_tick :
  let st := snd (main os_ok (argv_of "1e306") [Timer os_ok]) in
  is_finite (interval (self st)) = true
  /\ stdout (world st) = [banner; dpi_line 144; format_line sample_ok]
  /\ stderr (world st)
     = ["Exception in Tkinter callback"%string;
        "OverflowError: cannot convert float infinity to integer"%string]
  /\ timers (world st) = [].
Proof. vm_compute. repeat apply conj; reflexivity. Qed.

End Rescheduling.

(* ================================================================= *)
(** * More of the program *)

Import Dpi Loop.

(** Follows every branch, computing after each choice. *)
Ltac explore :=
  repeat (match goal with
          | |- context [match ?e with _ => _ end] =>
              lazymatch e with
              | context [match _ with _ => _ end] => fail
              | _ => destruct e eqn:?
              end
          end; unfold_tick).

(** ** DPI awareness *)

Section DpiAwareness.

Lemma enable_dpi_awareness_returns os log :
  exists dl, enable_dpi_awareness os log = (Ok tt, dl).
Proof.
  unfold enable_dpi_awareness, W_HRESULT, attempt, py_not.
  cbv beta iota zeta delta
    [bind ret raise modify try_except of_result is_Exception].
  destruct (SetProcessDpiAwarenessContext os _) as [b|e]; cbn [negb];
    try destruct (b =? 0); cbn [negb];
    destruct (wintypes_has_HRESULT os);
    destruct (shcore os) as [f|];
    try (destruct (f 2) as [hr|e']; try destruct (hr_accepted hr));
    destruct (SetProcessDPIAware os);
    eexists; reflexivity.
Qed.

(** X5. [enable_dpi_awareness] never raises.  It tries per-monitor V2
    first and stops there if that succeeds.  The second tier reaches
    [shcore.SetProcessDpiAwareness(2)] only where shcore was loaded and
    [ctypes.wintypes] has an attribute [HRESULT]; as [ctypes.wintypes] has
    none, line 65 raises inside the [try], the shcore call is never made,
    and whenever per-monitor V2 fails the legacy [SetProcessDPIAware] is
    what is tried. *)
Theorem enable_dpi_awareness_tiers (os : DpiOS) (log : list DpiCall) :
  enable_dpi_awareness os log
  = (Ok tt,
     log ++ TryAwarenessContext (-4)
         :: (if context_tier_ok os then []
             else if wintypes_has_HRESULT os then
               match shcore os with
               | Some f =>
                   TryProcessAwareness 2
                   :: (match f 2 with
                       | Ok hr =>
                           if hr_accepted hr then [] else [TryLegacyAware]
                       | Raise _ => [TryLegacyAware]
                       end)
               | None => [TryLegacyAware]
               end
             else [TryLegacyAware])).
Proof.
  unfold enable_dpi_awareness, context_tier_ok, W_HRESULT,
    DPI_AWARENESS_CONTEXT_PER_MONITOR_AWARE_V2, attempt, py_not.
  destruct (wintypes_has_HRESULT os);
    cbv beta iota zeta delta
      [bind ret raise modify try_except of_result is_Exception];
    destruct (SetProcessDpiAwarenessContext os (-4)) as [b|e]; cbn [negb];
    try (destruct (b =? 0); cbn [negb]; [|reflexivity]);
    destruct (shcore os) as [f|];
    try (destruct (f 2) as [hr|e']; try destruct (hr_accepted hr));
    destruct (SetProcessDPIAware os);
    rewrite <- ?app_assoc; reflexivity.
Qed.

Example enable_dpi_awareness_runs :
  snd (enable_dpi_awareness dpi_os_modern []) = [TryAwarenessContext (-4)]
  /\ snd (enable_dpi_awareness dpi_os_81 [])
     = [TryAwarenessContext (-4); TryLegacyAware]
  /\ snd (enable_dpi_awareness dpi_os_7 [])
     = [TryAwarenessContext (-4); TryLegacyAware].
Proof. repeat apply conj; reflexivity. Qed.

End DpiAwareness.

(** ** The window handle *)

Section Handle.

Lemma tick_try_state os st :
  self (snd (tick_try os st)) = self (snd (tick_body os st))
  /\ calls (world (snd (tick_try os st))) = calls (world (snd (tick_body os st)))
  /\ stdout (world (snd (tick_try os st))) = stdout (world (snd (tick_body os st))).
Proof.
  unfold tick_try, try_except.
  destruct (tick_body os st) as [[[]|e] [app [so se tm cl q]]];
    repeat apply conj; reflexivity.
Qed.

Lemma after_tick_self os st :
  running st -> self (after_tick os st) = self (snd (tick_try os st)).
Proof.
  intros Hrun. unfold after_tick. rewrite (tick_running os st Hrun).
  destruct (tick_try_run os st) as (st1 & E & _).
  unfold bind. rewrite E, reschedule_run. cbn [snd].
  destruct (delay_ms st1); reflexivity.
Qed.

(** With a handle stored, the body of a tick leaves it alone and does not
    ask the window for it. *)
Lemma tick_body_keeps_handle os st :
  truthy (hwnd (self st)) = true ->
  hwnd (self (snd (tick_body os st))) = hwnd (self st)
  /\ exists new,
       calls (world (snd (tick_body os st))) = calls (world st) ++ new
       /\ ~ In CallWinfoId new.
Proof.
  destruct st as [[iv sp h] [so se tm cl q]]. cbn [self hwnd world calls].
  intros Hh. unfold_tick. rewrite Hh. cbn [negb]. unfold_tick.
  explore; (split; [reflexivity|]); rewrite <- ?app_assoc;
    eexists; (split; [reflexivity|]); cbn [In app];
    intros H; repeat (destruct H as [H|H]; [discriminate H|]); exact H.
Qed.

(** Without a handle, the body of a tick asks the window for one and
    stores what it is given, before any other query. *)
Lemma tick_body_resolves_handle os st h :
  truthy (hwnd (self st)) = false -> winfo_id os = Ok h ->
  hwnd (self (snd (tick_body os st))) = Some h.
Proof.
  destruct st as [[iv sp h0] [so se tm cl q]]. cbn [self hwnd].
  intros Hh Hw. unfold_tick. rewrite Hh. cbn [negb]. unfold_tick.
  rewrite Hw. unfold_tick. explore; reflexivity.
Qed.

(** X6. A Running tick that starts without a handle stores the handle the
    window gives it, whatever the queries after it do. *)
Theorem tick_resolves_handle (os : OS) (st : State) (h : Z) :
  running st ->
  truthy (hwnd (self st)) = false -> winfo_id os = Ok h ->
  hwnd (self (after_tick os st)) = Some h.
Proof.
  intros Hrun Hh Hw. rewrite (after_tick_self os st Hrun).
  destruct (tick_try_state os st) as (-> & _).
  now apply tick_body_resolves_handle.
Qed.

Lemma tick_resolves_handle_witness :
  hwnd (self (after_tick os_ok st_no_handle)) = Some 1234.
Proof.
  apply (tick_resolves_handle os_ok st_no_handle 1234); reflexivity.
Defined.

Lemma tick_keeps_handle os st :
  truthy (hwnd (self st)) = true ->
  hwnd (self (after_tick os st)) = hwnd (self st)
  /\ exists new,
       calls (world (after_tick os st)) = calls (world st) ++ new
       /\ ~ In CallWinfoId new.
Proof.
  intros Hh. destruct (_stop (self st)) eqn:Hs.
  - unfold after_tick. rewrite (tick_stopped os st Hs). cbn [snd].
    split; [reflexivity|]. exists []. rewrite app_nil_r. split; [reflexivity|].
    intros [].
  - rewrite (after_tick_self os st Hs).
    destruct (tick_running_streams os st Hs) as (_ & _ & ->).
    destruct (tick_try_state os st) as (-> & -> & _).
    now apply tick_body_keeps_handle.
Qed.

(** A timer event with a callback pending runs [_tick] with the callback
    taken off the queue, under Tk's guard. *)
Lemma fire_cons os app so se d rest cl q :
  fire os (mkState app (mkWorld so se (d :: rest) cl q))
  = try_except (_tick os) is_Exception report_callback_exception
      (mkState app (mkWorld so se rest cl q)).
Proof. reflexivity. Qed.

(** Tk's guard never lets an exception through, and adds to the error
    stream only. *)
Lemma guarded_tick_run os st :
  exists st',
    try_except (_tick os) is_Exception report_callback_exception st
    = (Ok tt, st')
    /\ self st' = self (after_tick os st)
    /\ stdout (world st') = stdout (world (after_tick os st))
    /\ timers (world st') = timers (world (after_tick os st))
    /\ calls (world st') = calls (world (after_tick os st))
    /\ quit (world st') = quit (world (after_tick os st))
    /\ match fst (_tick os st) with
       | Ok _ => stderr (world st') = stderr (world (after_tick os st))
       | Raise e =>
           stderr (world st')
           = stderr (world (after_tick os st))
             ++ ["Exception in Tkinter callback"%string;
                 class_name e +++ ": " +++ str_exn e]
       end.
Proof.
  unfold try_except, after_tick.
  destruct (_tick os st) as [[[]|e] [app [so se tm cl q]]]; cbn [fst snd].
  - eexists. split; [reflexivity|]. repeat apply conj; reflexivity.
  - unfold is_Exception, report_callback_exception, in_world, lift, bind,
      eprint, modify. cbn [self world stdout stderr timers calls quit].
    eexists. split; [reflexivity|].
    cbn [self world stdout stderr timers calls quit].
    repeat apply conj; try reflexivity. now rewrite <- app_assoc.
Qed.

Lemma dispatch_keeps_handle ev st :
  truthy (hwnd (self st)) = true ->
  hwnd (self (snd (dispatch ev st))) = hwnd (self st)
  /\ exists new,
       calls (world (snd (dispatch ev st))) = calls (world st) ++ new
       /\ ~ In CallWinfoId new.
Proof.
  intros Hh. destruct ev as [os|]; cbn [dispatch].
  - destruct st as [app [so se [|d rest] cl q]].
    + rewrite fire_idle by reflexivity. cbn [snd].
      split; [reflexivity|].
      exists []. rewrite app_nil_r. split; [reflexivity | intros []].
    + rewrite fire_cons.
      destruct (guarded_tick_run os (mkState app (mkWorld so se rest cl q)))
        as (st' & E & Hs & _ & _ & Hc & _).
      rewrite E. cbn [snd]. rewrite Hs, Hc.
      exact (tick_keeps_handle os (mkState app (mkWorld so se rest cl q)) Hh).
  - destruct st as [[iv sp h] [so se tm cl q]]. unfold_tick.
    split; [reflexivity|]. exists []. rewrite app_nil_r.
    split; [reflexivity | intros []].
Qed.

Lemma mainloop_cons ev evs st :
  mainloop (ev :: evs) st
  = if quit (world st) then (Ok tt, st)
    else match dispatch ev st with
         | (Ok _, st1) => mainloop evs st1
         | (Raise e, st1) => (Raise e, st1)
         end.
Proof.
  cbn [mainloop]. unfold bind, get. destruct (quit (world st)); reflexivity.
Qed.

(** X7. Once a handle is stored it is stored for good: through every
    event of the loop the handle stays the same and the window is never
    asked for it again. *)
Theorem handle_resolved_once (evs : list event) (st : State) :
  truthy (hwnd (self st)) = true ->
  hwnd (self (snd (mainloop evs st))) = hwnd (self st)
  /\ exists new,
       calls (world (snd (mainloop evs st))) = calls (world st) ++ new
       /\ ~ In CallWinfoId new.
Proof.
  revert st. induction evs as [|ev evs IH]; intros st Hh.
  - cbn. split; [reflexivity|]. exists []. rewrite app_nil_r.
    split; [reflexivity | intros []].
  - rewrite mainloop_cons. destruct (quit (world st)).
    + cbn. split; [reflexivity|]. exists []. rewrite app_nil_r.
      split; [reflexivity | intros []].
    + destruct (dispatch_keeps_handle ev st Hh) as (D1 & n1 & D2 & D3).
      destruct (dispatch ev st) as [[[]|e] st1]; cbn [snd] in *.
      * assert (Hh1 : truthy (hwnd (self st1)) = true) by now rewrite D1.
        destruct (IH st1 Hh1) as (I1 & n2 & I2 & I3).
        split; [now rewrite I1|]. exists (n1 ++ n2).
        rewrite I2, D2, app_assoc. split; [reflexivity|].
        intros H. apply in_app_or in H. tauto.
      * split; [exact D1|]. exists n1. tauto.
Qed.

(** A run in which two ticks execute, the second with the cursor denied,
    before Escape. *)
Lemma handle_resolved_once_witness :
  hwnd (self (snd (mainloop [Timer os_ok; Timer os_cursor_denied; Escape] st_started)))
  = hwnd (self st_started)
  /\ exists new,
       calls (world (snd (mainloop [Timer os_ok; Timer os_cursor_denied; Escape]
                            st_started)))
       = calls (world st_started) ++ new
       /\ ~ In CallWinfoId new.
Proof.
  apply (handle_resolved_once [Timer os_ok; Timer os_cursor_denied; Escape] st_started).
  reflexivity.
Defined.

Example handle_resolved_once_run :
  calls (world (snd (mainloop [Timer os_ok; Timer os_cursor_denied; Escape]
                       st_started)))
  = [CallGetCursorPos; CallGetWindowRect 1234; CallGetClientRect 1234;
     CallClientToScreen 1234 {| x := 0; y := 0 |};
     CallScreenToClient 1234 {| x := 640; y := 480 |}; CallGetCursorPos].
Proof. vm_compute. reflexivity. Qed.

End Handle.

(** ** The event loop *)

Section EventLoop.

Lemma stop_run st :
  stop st
  = (Ok tt,
     mkState (mkTrackerApp (interval (self st)) true (hwnd (self st)))
             (mkWorld (stdout (world st)) (stderr (world st))
                      (timers (world st)) (calls (world st)) true)).
Proof. destruct st as [[iv sp h] [so se tm cl q]]. reflexivity. Qed.

Lemma mainloop_quit evs st :
  quit (world st) = true -> mainloop evs st = (Ok tt, st).
Proof.
  intros H. destruct evs as [|ev evs]; [reflexivity|].
  rewrite mainloop_cons. now rewrite H.
Qed.

(** What a tick does not touch: the interval, the stop flag, the quit
    request. *)
Lemma tick_flags os st :
  interval (self (after_tick os st)) = interval (self st)
  /\ _stop (self (after_tick os st)) = _stop (self st)
  /\ quit (world (after_tick os st)) = quit (world st).
Proof.
  unfold after_tick. destruct (_stop (self st)) eqn:Hs.
  - rewrite (tick_stopped os st Hs). cbn [snd]. auto.
  - rewrite (tick_running os st Hs).
    destruct (tick_try_run os st) as (st1 & E & Hi & Hs1 & _ & Hq & _).
    unfold bind. rewrite E, reschedule_run.
    destruct (delay_ms st1); cbn [snd self world quit interval _stop];
      repeat apply conj; congruence.
Qed.

(** A tick adds at most one callback. *)
Lemma tick_timers os st :
  exists tms,
    timers (world (after_tick os st)) = timers (world st) ++ tms
    /\ (List.length tms <= 1)%nat.
Proof.
  unfold after_tick. destruct (_stop (self st)) eqn:Hs.
  - rewrite (tick_stopped os st Hs). exists []. rewrite app_nil_r. auto.
  - rewrite (tick_running os st Hs).
    destruct (tick_try_run os st) as (st1 & E & _ & _ & Ht & _).
    unfold bind. rewrite E, reschedule_run.
    destruct (delay_ms st1) as [ms| |]; cbn [snd world timers].
    + exists [ms]. rewrite Ht. auto.
    + exists []. rewrite app_nil_r. auto.
    + exists []. rewrite app_nil_r. auto.
Qed.

(** The body of a tick prints nothing, or the line of a sample. *)
Lemma tick_body_prints_sample os st :
  match fst (tick_body os st) with
  | Ok _ => exists s, stdout (world (snd (tick_body os st)))
                      = stdout (world st) ++ [format_line s]
  | Raise _ => stdout (world (snd (tick_body os st))) = stdout (world st)
  end.
Proof.
  destruct st as [[iv sp h] [so se tm cl q]].
  unfold_tick. explore; try reflexivity; eexists; reflexivity.
Qed.

Lemma tick_stdout os st :
  exists outs,
    stdout (world (after_tick os st)) = stdout (world st) ++ outs
    /\ Forall sample_line outs /\ (List.length outs <= 1)%nat.
Proof.
  destruct (_stop (self st)) eqn:Hs.
  - unfold after_tick. rewrite (tick_stopped os st Hs). exists [].
    rewrite app_nil_r. auto.
  - destruct (tick_running_streams os st Hs) as (-> & _ & _).
    destruct (tick_try_state os st) as (_ & _ & ->).
    pose proof (tick_body_prints_sample os st) as P.
    destruct (fst (tick_body os st)).
    + destruct P as [s P]. exists [format_line s]. rewrite P.
      repeat apply conj; auto. constructor; [now exists s | constructor].
    + exists []. rewrite P, app_nil_r. auto.
Qed.

Lemma dispatch_ok ev st : fst (dispatch ev st) = Ok tt.
Proof.
  destruct ev as [os|]; cbn [dispatch].
  - destruct st as [app [so se [|d rest] cl q]].
    + now rewrite fire_idle.
    + rewrite fire_cons.
      destruct (guarded_tick_run os (mkState app (mkWorld so se rest cl q)))
        as (st' & E & _). now rewrite E.
  - now rewrite stop_run.
Qed.

Lemma mainloop_ok evs : forall st, fst (mainloop evs st) = Ok tt.
Proof.
  induction evs as [|ev evs IH]; intros st; [reflexivity|].
  rewrite mainloop_cons. destruct (quit (world st)); [reflexivity|].
  pose proof (dispatch_ok ev st) as D.
  destruct (dispatch ev st) as [[[]|e] st1]; cbn [fst] in D;
    [apply IH | discriminate D].
Qed.

(** X8. The Escape key ends the loop: whatever events come after it have
    no effect at all, and the loop has returned with the quit request
    made. *)
Theorem escape_ends_loop (evs1 evs2 : list event) (st : State) :
  mainloop (evs1 ++ Escape :: evs2) st = mainloop (evs1 ++ [Escape]) st
  /\ quit (world (snd (mainloop (evs1 ++ Escape :: evs2) st))) = true.
Proof.
  revert st. induction evs1 as [|ev evs1 IH]; intros st; cbn [app].
  - rewrite !mainloop_cons. destruct (quit (world st)) eqn:Hq.
    + split; [reflexivity | exact Hq].
    + cbn [dispatch]. rewrite stop_run.
      rewrite mainloop_quit by reflexivity. split; reflexivity.
  - rewrite !mainloop_cons. destruct (quit (world st)) eqn:Hq.
    + split; [reflexivity | exact Hq].
    + pose proof (dispatch_ok ev st) as D.
      destruct (dispatch ev st) as [[[]|e] st1]; cbn [fst] in D;
        [apply IH | discriminate D].
Qed.

End EventLoop.

(** ** From start-up through the loop *)

Import Program.

Section WholeRun.

(** The construction in full: the handle is what the window gives, or
    [None] when asking raises; the banner is printed, then the DPI line when
    there is one; the first tick is scheduled. *)
Lemma init_run_full os iv w :
  exists w',
    __init__ os iv w
    = (Ok (mkTrackerApp (py_max 0.01 iv) false
             (match winfo_id os with Ok n => Some n | Raise _ => None end)),
       w')
    /\ stdout w' = stdout w ++ banner :: dpi_lines os
    /\ stderr w' = stderr w
    /\ timers w' = timers w ++ [0]
    /\ quit w' = quit w.
Proof.
  destruct w as [so se tm cl q]. unfold dpi_lines. unfold_setup.
  destruct (winfo_id os) as [n|e]; cbn [truthy hwnd_value].
  - destruct (negb (n =? 0)).
    + destruct (GetDpiForWindow os n) as [d|e]; cbn [truthy hwnd_value].
      * destruct (negb (d =? 0)); eexists; (split; [reflexivity|]);
          cbn [stdout stderr timers quit]; rewrite <- ?app_assoc;
          repeat apply conj; reflexivity.
      * eexists; (split; [reflexivity|]); cbn [stdout stderr timers quit];
          repeat apply conj; reflexivity.
    + eexists; (split; [reflexivity|]); cbn [stdout stderr timers quit];
        repeat apply conj; reflexivity.
  - eexists; (split; [reflexivity|]); cbn [stdout stderr timers quit];
      repeat apply conj; reflexivity.
Qed.

Lemma parse_interval_run argv w :
  exists v w',
    parse_interval argv w = (Ok v, w')
    /\ stdout w' = stdout w /\ timers w' = timers w /\ quit w' = quit w
    /\ (stderr w' = stderr w \/ stderr w' = stderr w ++ [usage]).
Proof.
  destruct argv as [|prog [|arg rest]].
  - exists 0.1%float, w. repeat apply conj; auto.
  - exists 0.1%float, w. repeat apply conj; auto.
  - destruct (float_of_str arg) as [v|] eqn:E.
    + exists v, w. rewrite (parse_interval_number prog arg rest v w E).
      repeat apply conj; auto.
    + eexists; eexists. rewrite (parse_interval_malformed prog arg rest w E).
      split; [reflexivity|]. cbn [stdout stderr timers quit].
      repeat apply conj; auto.
Qed.

Lemma main_setup_run os argv :
  exists app w,
    main_setup os argv world0 = (Ok app, w)
    /\ _stop app = false
    /\ hwnd app = match winfo_id os with Ok n => Some n | Raise _ => None end
    /\ stdout w = banner :: dpi_lines os
    /\ (stderr w = [] \/ stderr w = [usage])
    /\ timers w = [0]
    /\ quit w = false.
Proof.
  unfold main_setup, main_setup_with, bind.
  change (parse_interval_with float_of_str argv world0)
    with (parse_interval argv world0).
  destruct (parse_interval_run argv world0) as (v & w1 & E & Ho & Ht & Hq & He).
  rewrite E. destruct (init_run_full os v w1) as (w' & E' & Ho' & He' & Ht' & Hq').
  rewrite E'. eexists; eexists. split; [reflexivity|].
  cbn [_stop hwnd]. rewrite Ho', He', Ht', Hq', Ho, Ht, Hq.
  repeat apply conj; auto.
Qed.

(** The window is built by six calls, in order; the first that raises
    ends the construction. *)
Lemma create_window_run tk :
  create_window tk [] = (Ok tt, window_calls)
  \/ exists e tl, create_window tk [] = (Raise e, tl) /\ tl <> [].
Proof.
  unfold create_window, tk_call, window_calls.
  cbv beta iota zeta delta [bind ret raise modify of_result app].
  destruct (Tk_new tk) as [[]|e]; [|right; eexists; eexists; split; [reflexivity|discriminate]].
  destruct (root_title tk _) as [[]|e]; [|right; eexists; eexists; split; [reflexivity|discriminate]].
  destruct (root_geometry tk _) as [[]|e]; [|right; eexists; eexists; split; [reflexivity|discriminate]].
  destruct (Frame_new tk _) as [[]|e]; [|right; eexists; eexists; split; [reflexivity|discriminate]].
  destruct (frame_pack tk _ _) as [[]|e]; [|right; eexists; eexists; split; [reflexivity|discriminate]].
  destruct (root_bind tk _) as [[]|e]; [|right; eexists; eexists; split; [reflexivity|discriminate]].
  left. reflexivity.
Qed.

Lemma TrackerApp_new_run tk os iv w :
  TrackerApp_new tk os iv ([], w)
  = match create_window tk [] with
    | (Ok _, tl) => let '(r, w') := __init__ os iv w in (r, (tl, w'))
    | (Raise e, tl) => (Raise e, (tl, w))
    end.
Proof.
  unfold TrackerApp_new, lift, Py.bind. cbn [fst snd].
  destruct (create_window tk []) as [[[]|e] tl]; cbn [fst snd]; [|reflexivity].
  destruct (__init__ os iv w) as [r w']. reflexivity.
Qed.

(** X9. What the constructor prints and does.  It raises exactly when one
    of the six Tk calls that build the window raises (as [tk.Tk()] does
    without a display), with that exception, and then it has printed and
    scheduled nothing.  When the window is built: the banner always,
    first; after it the DPI line exactly when the window gave a handle
    that is not zero and [GetDpiForWindow] returned a DPI that is not
    zero; nothing on the error stream; the first tick scheduled at once;
    and no exception, also when the window gives no handle or the DPI
    query is missing. *)
Theorem init_banner_and_first_tick
        (tk : Tk) (os : OS) (iv : float) (w : World) :
  match create_window tk [] with
  | (Raise e, tl) =>
      TrackerApp_new tk os iv ([], w) = (Raise e, (tl, w))
  | (Ok _, tl) =>
      tl = window_calls
      /\ exists app w',
           TrackerApp_new tk os iv ([], w) = (Ok app, (window_calls, w'))
           /\ hwnd app
              = match winfo_id os with Ok n => Some n | Raise _ => None end
           /\ _stop app = false
           /\ stdout w' = stdout w ++ banner :: dpi_lines os
           /\ (List.length (dpi_lines os) <= 1)%nat
           /\ (dpi_lines os <> [] <->
               exists n d, winfo_id os = Ok n /\ n <> 0
                           /\ GetDpiForWindow os n = Ok d /\ d <> 0)
           /\ stderr w' = stderr w
           /\ timers w' = timers w ++ [0]
  end.
Proof.
  rewrite TrackerApp_new_run.
  destruct (create_window_run tk) as [Ew | (e & tl & Ew & _)]; rewrite Ew;
    [|reflexivity].
  split; [reflexivity|].
  destruct (init_run_full os iv w) as (w' & E & Ho & He & Ht & _).
  rewrite E.
  eexists; eexists. split; [reflexivity|]. cbn [hwnd _stop].
  repeat apply conj; auto.
  - unfold dpi_lines. destruct (winfo_id os) as [n|]; cbn; [|lia].
    destruct (negb (n =? 0)); cbn; [|lia].
    destruct (GetDpiForWindow os n) as [d|]; cbn; [|lia].
    destruct (negb (d =? 0)); cbn; lia.
  - unfold dpi_lines. intros H.
    destruct (winfo_id os) as [n|]; [|congruence].
    cbn [truthy] in H. destruct (n =? 0) eqn:Hn; cbn [negb] in H; [congruence|].
    destruct (GetDpiForWindow os n) as [d|] eqn:Hd; [|congruence].
    cbn [truthy] in H. destruct (d =? 0) eqn:Hd0; cbn [negb] in H; [congruence|].
    apply Z.eqb_neq in Hn, Hd0. exists n, d. auto.
  - intros (n & d & Hw & Hn & Hd & Hd0). unfold dpi_lines.
    apply Z.eqb_neq in Hn, Hd0.
    rewrite Hw. cbn [truthy]. rewrite Hn. cbn [negb]. rewrite Hd.
    cbn [truthy]. rewrite Hd0. cbn [negb]. discriminate.
Qed.

Example constructor_without_display :
  TrackerApp_new tk_no_display os_ok 0.1 ([], world0)
  = (Raise (TclError "no display name and no $DISPLAY environment variable"),
     ([MakeRoot], world0)).
Proof. vm_compute. reflexivity. Qed.

Lemma dispatch_pending ev st :
  (List.length (timers (world st)) <= 1)%nat ->
  (List.length (timers (world (snd (dispatch ev st)))) <= 1)%nat.
Proof.
  intros H. destruct ev as [os|]; cbn [dispatch].
  - destruct st as [app [so se [|d rest] cl q]].
    + now rewrite fire_idle.
    + rewrite fire_cons.
      destruct (guarded_tick_run os (mkState app (mkWorld so se rest cl q)))
        as (st' & E & _ & _ & Ht & _).
      rewrite E. cbn [snd]. rewrite Ht.
      destruct (tick_timers os (mkState app (mkWorld so se rest cl q)))
        as (tms & -> & Hl).
      cbn [world timers List.length] in *.
      destruct rest; [cbn; lia | cbn in H; lia].
  - rewrite stop_run. exact H.
Qed.

Lemma mainloop_pending evs : forall st,
  (List.length (timers (world st)) <= 1)%nat ->
  (List.length (timers (world (snd (mainloop evs st)))) <= 1)%nat.
Proof.
  induction evs as [|ev evs IH]; intros st H; [exact H|].
  rewrite mainloop_cons. destruct (quit (world st)); [exact H|].
  pose proof (dispatch_pending ev st H) as D.
  destruct (dispatch ev st) as [[[]|e] st1]; cbn [snd] in *; auto.
Qed.

(** X10. Never two ticks pending: from start-up on, through every
    sequence of timer and Escape events and for every argument, at most one
    [_tick] callback is waiting in the queue. *)
Theorem at_most_one_pending (os : OS) (argv : list string) (evs : list event) :
  (List.length (timers (world (snd (main os argv evs)))) <= 1)%nat.
Proof.
  unfold main.
  destruct (main_setup_run os argv) as (app & w & E & _ & _ & _ & _ & Ht & _).
  rewrite E. apply mainloop_pending. cbn [world]. rewrite Ht. cbn. lia.
Qed.

Lemma dispatch_stdout ev st :
  exists outs,
    stdout (world (snd (dispatch ev st))) = stdout (world st) ++ outs
    /\ Forall sample_line outs
    /\ (List.length outs <= n_timers [ev])%nat.
Proof.
  destruct ev as [os|]; cbn [dispatch n_timers].
  - destruct st as [app [so se [|d rest] cl q]].
    + rewrite fire_idle by reflexivity. exists []. rewrite app_nil_r.
      cbn. auto.
    + rewrite fire_cons.
      destruct (guarded_tick_run os (mkState app (mkWorld so se rest cl q)))
        as (st' & E & _ & Ho & _).
      rewrite E. cbn [snd]. rewrite Ho.
      exact (tick_stdout os (mkState app (mkWorld so se rest cl q))).
  - rewrite stop_run. exists []. rewrite app_nil_r. cbn. auto.
Qed.

Lemma mainloop_stdout evs : forall st,
  exists samples,
    stdout (world (snd (mainloop evs st))) = stdout (world st) ++ samples
    /\ Forall sample_line samples
    /\ (List.length samples <= n_timers evs)%nat.
Proof.
  induction evs as [|ev evs IH]; intros st.
  - exists []. rewrite app_nil_r. cbn. auto.
  - rewrite mainloop_cons. destruct (quit (world st)).
    + exists []. rewrite app_nil_r. cbn [snd List.length].
      repeat apply conj; auto. lia.
    + destruct (dispatch_stdout ev st) as (o1 & D1 & D2 & D3).
      assert (Hn : (n_timers (ev :: evs) = n_timers [ev] + n_timers evs)%nat)
        by (destruct ev; cbn; lia).
      destruct (dispatch ev st) as [[[]|e] st1]; cbn [snd] in *.
      * destruct (IH st1) as (o2 & I1 & I2 & I3).
        exists (o1 ++ o2). rewrite I1, D1, app_assoc.
        repeat apply conj; auto.
        -- apply Forall_app. auto.
        -- rewrite length_app. lia.
      * exists o1. repeat apply conj; auto. lia.
Qed.

(** When the window is built the program is [main] after the DPI
    calls. *)
Lemma program_run dos tk os argv evs :
  exists dl,
    enable_dpi_awareness dos [] = (Ok tt, dl)
    /\ program dos tk os argv evs
       = match create_window tk [] with
         | (Ok _, tl) =>
             (fst (main os argv evs),
              mkTrace dl tl (world (snd (main os argv evs))))
         | (Raise e, tl) =>
             (Raise e, mkTrace dl tl (snd (parse_interval argv world0)))
         end.
Proof.
  destruct (enable_dpi_awareness_returns dos []) as (dl & Ed).
  exists dl. split; [exact Ed|]. unfold program. rewrite Ed.
  unfold main, main_setup, main_setup_with, Py.bind.
  change (parse_interval_with float_of_str argv world0)
    with (parse_interval argv world0).
  destruct (parse_interval_run argv world0) as (v & w1 & E & _).
  rewrite E. cbn [fst snd]. rewrite TrackerApp_new_run.
  destruct (create_window tk []) as [[[]|e] tl]; [|reflexivity].
  destruct (__init__ os v w1) as [[app|e] w']; [|reflexivity].
  destruct (mainloop evs (mkState app w')) as [r st]. reflexivity.
Qed.

(** X11. The sample stream of a whole run of the program, over timer and
    Escape events.  The run ends in an exception exactly when one of the
    Tk calls that build the window raises, and then the sample stream is
    empty.  When the window is built the run ends normally, and the
    sample stream is the banner, then the DPI line if there is one, then
    nothing but sample lines, at most one for each timer event. *)
Theorem stdout_of_a_run
        (dos : DpiOS) (tk : Tk) (os : OS) (argv : list string)
        (evs : list event) :
  let '(r, tr) := program dos tk os argv evs in
  match create_window tk [] with
  | (Raise e, tl) =>
      r = Raise e /\ tk_calls tr = tl /\ stdout (final tr) = []
      /\ timers (final tr) = []
  | (Ok _, _) =>
      r = Ok tt
      /\ tk_calls tr = window_calls
      /\ exists samples,
           stdout (final tr) = banner :: dpi_lines os ++ samples
           /\ Forall sample_line samples
           /\ (List.length samples <= n_timers evs)%nat
  end.
Proof.
  destruct (program_run dos tk os argv evs) as (dl & _ & ->).
  destruct (create_window_run tk) as [Ew | (e & tl & Ew & _)]; rewrite Ew.
  - cbn [tk_calls final]. split; [|split; [reflexivity|]].
    + unfold main.
      destruct (main_setup_run os argv) as (app & w & E & _).
      rewrite E. apply mainloop_ok.
    + unfold main.
      destruct (main_setup_run os argv) as (app & w & E & _ & _ & Ho & _).
      rewrite E.
      destruct (mainloop_stdout evs (mkState app w)) as (samples & S1 & S2 & S3).
      exists samples. rewrite S1. cbn [world]. rewrite Ho.
      repeat apply conj; auto.
  - cbn [tk_calls final].
    destruct (parse_interval_run argv world0) as (v & w1 & E & Ho & Ht & _).
    rewrite E. cbn [fst snd]. rewrite Ho, Ht. repeat apply conj; reflexivity.
Qed.

Example program_without_display :
  program dpi_os_modern tk_no_display os_ok (argv_of "0.25") [Timer os_ok]
  = (Raise (TclError "no display name and no $DISPLAY environment variable"),
     mkTrace [TryAwarenessContext (-4)] [MakeRoot] world0).
Proof. vm_compute. reflexivity. Qed.

(** A timer event in the Running state with a finite interval: the tick
    runs, prints one line on one of the streams, and one callback is
    pending again. *)
Lemma fire_running_finite os st d ms :
  running st -> timers (world st) = [d] -> delay_ms st = IntOk ms ->
  exists st',
    fire os st = (Ok tt, st')
    /\ running st'
    /\ timers (world st') = [ms]
    /\ delay_ms st' = IntOk ms
    /\ quit (world st') = quit (world st)
    /\ exists outs errs,
         stdout (world st') = stdout (world st) ++ outs
         /\ stderr (world st') = stderr (world st) ++ errs
         /\ Forall sample_line outs /\ Forall error_line errs
         /\ (List.length outs + List.length errs = 1)%nat.
Proof.
  destruct st as [app [so se tm cl q]]. unfold running, delay_ms.
  cbn [self world timers stdout stderr quit]. intros Hrun -> Hms.
  rewrite fire_cons. set (st0 := mkState app (mkWorld so se [] cl q)).
  destruct (tick_running_finite os st0 ms Hrun Hms) as (st' & E & Ht & Hout).
  unfold try_except. rewrite E. exists st'. split; [reflexivity|].
  destruct (tick_flags os st0) as (Fi & Fs & Fq).
  unfold after_tick in Fi, Fs, Fq. rewrite E in Fi, Fs, Fq. cbn [snd] in Fi, Fs, Fq.
  unfold running. rewrite Fi, Fs, Fq. repeat apply conj; auto.
  pose proof (tick_body_prints_sample os st0) as P.
  destruct (fst (tick_body os st0)).
  - destruct Hout as (_ & Hso & Hse). destruct P as [s P].
    exists [format_line s], []. rewrite Hso, P, Hse, app_nil_r.
    repeat apply conj; auto. constructor; [now exists s | constructor].
  - destruct Hout as (Hso & Hse).
    exists [], ["[error] " +++ str_exn e]. rewrite Hso, Hse, app_nil_r.
    repeat apply conj; auto.
    constructor; [now exists (str_exn e) | constructor].
Qed.

Lemma mainloop_running_finite oss : forall st d ms,
  running st -> quit (world st) = false ->
  timers (world st) = [d] -> delay_ms st = IntOk ms ->
  exists st',
    mainloop (map Timer oss) st = (Ok tt, st')
    /\ running st'
    /\ (exists d', timers (world st') = [d'])
    /\ exists samples errs,
         stdout (world st') = stdout (world st) ++ samples
         /\ stderr (world st') = stderr (world st) ++ errs
         /\ Forall sample_line samples /\ Forall error_line errs
         /\ (List.length samples + List.length errs = List.length oss)%nat.
Proof.
  induction oss as [|os oss IH]; intros st d ms Hrun Hq Ht Hms.
  - exists st. split; [reflexivity|]. repeat apply conj; eauto.
    exists [], []. rewrite !app_nil_r. repeat apply conj; auto.
  - cbn [map]. rewrite mainloop_cons, Hq. cbn [dispatch].
    destruct (fire_running_finite os st d ms Hrun Ht Hms)
      as (st1 & E & Hrun1 & Ht1 & Hms1 & Hq1 & o1 & e1 & So1 & Se1 & Fo1 & Fe1 & L1).
    rewrite E. rewrite Hq in Hq1.
    destruct (IH st1 ms ms Hrun1 Hq1 Ht1 Hms1)
      as (st' & E' & Hrun' & Ht' & o2 & e2 & So2 & Se2 & Fo2 & Fe2 & L2).
    exists st'. split; [exact E'|]. repeat apply conj; auto.
    exists (o1 ++ o2), (e1 ++ e2).
    rewrite So2, Se2, So1, Se1, !app_assoc.
    repeat apply conj; auto; try (apply Forall_app; auto).
    rewrite !length_app. cbn [List.length]. lia.
Qed.

(** X12. Where [int(self.interval * 1000)] is an integer (the product,
    not only the interval, is finite) the loop neither stalls nor crashes:
    for every sequence of timer events, whatever the OS queries do, the run
    ends normally, every tick has printed exactly one line (a sample line on
    the sample stream or an [[error]] line on the error stream, after the
    usage line if there was one), the loop is still Running and exactly one
    callback is pending. *)
Theorem finite_interval_loop_runs
        (os : OS) (argv : list string) (oss : list OS)
        (app : TrackerApp) (w : World) (ms : Z) :
  main_setup os argv world0 = (Ok app, w) ->
  int_of_float (PrimFloat.mul (interval app) 1000) = IntOk ms ->
  let st := snd (main os argv (map Timer oss)) in
  fst (main os argv (map Timer oss)) = Ok tt
  /\ running st
  /\ (exists d, timers (world st) = [d])
  /\ exists samples errs,
       stdout (world st) = stdout w ++ samples
       /\ stderr (world st) = stderr w ++ errs
       /\ Forall sample_line samples /\ Forall error_line errs
       /\ (List.length samples + List.length errs = List.length oss)%nat.
Proof.
  intros E Hms. unfold main. rewrite E.
  destruct (main_setup_run os argv) as (app' & w' & E' & Hs & _ & _ & _ & Ht & Hq).
  rewrite E in E'. injection E' as <- <-.
  destruct (mainloop_running_finite oss (mkState app w) 0 ms Hs Hq Ht Hms)
    as (st' & El & Hrun & Ht' & Hout).
  cbv zeta. rewrite El. cbn [fst snd]. repeat apply conj; auto.
Qed.

Lemma finite_interval_loop_runs_witness :
  let st := snd (main os_ok (argv_of "0.25")
                   (map Timer [os_ok; os_cursor_denied; os_translation_denied])) in
  fst (main os_ok (argv_of "0.25")
         (map Timer [os_ok; os_cursor_denied; os_translation_denied])) = Ok tt
  /\ running st
  /\ (exists d, timers (world st) = [d])
  /\ exists samples errs,
       stdout (world st) = [banner; dpi_line 144] ++ samples
       /\ stderr (world st) = [] ++ errs
       /\ Forall sample_line samples /\ Forall error_line errs
       /\ (List.length samples + List.length errs = 3)%nat.
Proof.
  apply (finite_interval_loop_runs os_ok (argv_of "0.25")
           [os_ok; os_cursor_denied; os_translation_denied]
           (mkTrackerApp 0.25 false (Some 1234))
           (mkWorld [banner; dpi_line 144] [] [0]
                    [CallWinfoId; CallGetDpiForWindow 1234] false) 250);
    vm_compute; reflexivity.
Defined.

End WholeRun.

(** ** Coordinates *)

Import Scale.

Section Coordinates.

Lemma LONG_in_range z : in_long z -> LONG z = z.
Proof.
  unfold in_long, LONG. intros H.
  change (2 ^ 31) with 2147483648 in *. change (2 ^ 32) with 4294967296.
  rewrite Z.mod_small by lia. lia.
Qed.

(** X13. The two translations agree: where the operating system
    translates between screen and client coordinates by the client
    origin, a screen point lies inside the rectangle that
    [get_client_rect_screen] returns exactly when [screen_to_client] puts
    it inside [0, width) x [0, height) of the raw client area. *)
Theorem client_rect_and_translation_agree
        (os : OS) (h : Z) (o : POINT) (ok : BOOL) (rc : RECT)
        (px py : Z) (w1 w2 : World) :
  translates_by os h o ->
  GetClientRect os h RECT_0 = (ok, rc) -> ok <> 0 ->
  in_long px -> in_long py ->
  exists l t r b rx ry,
    fst (get_client_rect_screen os h w1) = Ok (l, t, r, b)
    /\ fst (screen_to_client os h px py w2) = Ok (rx, ry)
    /\ (l <= px < r <-> 0 <= rx < right rc - left rc)
    /\ (t <= py < b <-> 0 <= ry < bottom rc - top rc).
Proof.
  intros [(ok2 & E2 & H2) Hs] E1 H1 Hx Hy.
  destruct (Hs (POINT_ px py)) as (ok3 & E3 & H3).
  apply Z.eqb_neq in H1, H2, H3.
  exists (x o), (y o), (x o + (right rc - left rc)),
         (y o + (bottom rc - top rc)),
         (x (POINT_ px py) - x o), (y (POINT_ px py) - y o).
  unfold get_client_rect_screen, screen_to_client. unfold_tick.
  rewrite E1, E2, E3. unfold py_not. rewrite H1, H2, H3.
  unfold POINT_. cbn [x y fst].
  rewrite (LONG_in_range px Hx), (LONG_in_range py Hy).
  repeat apply conj; try reflexivity; lia.
Qed.

Lemma client_rect_and_translation_agree_witness :
  exists l t r b rx ry,
    fst (get_client_rect_screen os_ok 1234 world0) = Ok (l, t, r, b)
    /\ fst (screen_to_client os_ok 1234 640 480 world0) = Ok (rx, ry)
    /\ (l <= 640 < r <-> 0 <= rx < 384 - 0)
    /\ (t <= 480 < b <-> 0 <= ry < 201 - 0).
Proof.
  apply (client_rect_and_translation_agree os_ok 1234 (mkPOINT 208 231) 1
           (mkRECT 0 0 384 201) 640 480 world0 world0).
  - split.
    + exists 1. split; [reflexivity | lia].
    + intros p. exists 1. split; [reflexivity | lia].
  - reflexivity.
  - lia.
  - unfold in_long. lia.
  - unfold in_long. lia.
Defined.

(** X14. With a handle stored and every query succeeding, a Running tick
    makes exactly five OS queries, in this order: the cursor, the window
    rectangle, the client rectangle, the client origin, and the
    translation of the very cursor position it read. *)
Theorem tick_query_order
        (os : OS) (st : State) (h : Z)
        (okc okw okr oks okt : BOOL) (pc ps pt : POINT) (rw rc : RECT) :
  running st ->
  hwnd (self st) = Some h -> h <> 0 ->
  GetCursorPos os (POINT_ 0 0) = (okc, pc) -> okc <> 0 ->
  GetWindowRect os h RECT_0 = (okw, rw) -> okw <> 0 ->
  GetClientRect os h RECT_0 = (okr, rc) -> okr <> 0 ->
  ClientToScreen os h (POINT_ 0 0) = (oks, ps) -> oks <> 0 ->
  ScreenToClient os h (POINT_ (x pc) (y pc)) = (okt, pt) -> okt <> 0 ->
  calls (world (after_tick os st))
  = calls (world st)
    ++ [CallGetCursorPos; CallGetWindowRect h; CallGetClientRect h;
        CallClientToScreen h (POINT_ 0 0);
        CallScreenToClient h (POINT_ (x pc) (y pc))].
Proof.
  intros Hrun Hh Hnz Ec Hc Ew Hw Er Hr Es Hs Et Ht.
  destruct (tick_running_streams os st Hrun) as (_ & _ & ->).
  destruct (tick_try_state os st) as (_ & -> & _).
  destruct st as [[iv sp h0] [so se tm cl q]]. cbn [self hwnd world calls] in *.
  subst h0. apply Z.eqb_neq in Hc, Hw, Hr, Hs, Ht, Hnz.
  run_with_facts. now rewrite <- !app_assoc.
Qed.

Lemma tick_query_order_witness :
  calls (world (after_tick os_ok st_running))
  = calls (world st_running)
    ++ [CallGetCursorPos; CallGetWindowRect 1234; CallGetClientRect 1234;
        CallClientToScreen 1234 (POINT_ 0 0);
        CallScreenToClient 1234 (POINT_ 640 480)].
Proof.
  apply (tick_query_order os_ok st_running 1234 1 1 1 1 1
           (mkPOINT 640 480) (mkPOINT 208 231) (mkPOINT 432 249)
           (mkRECT 200 200 600 440) (mkRECT 0 0 384 201));
    first [reflexivity | lia].
Defined.

(** X15. A failed cursor query ends the sampling of the tick on the
    spot: with a handle stored, no other OS query is made, the error line
    names [GetCursorPos], and nothing is printed on the sample stream. *)
Theorem cursor_failure_stops_sampling (os : OS) (st : State) :
  running st -> truthy (hwnd (self st)) = true -> cursor_fails os ->
  calls (world (after_tick os st)) = calls (world st) ++ [CallGetCursorPos]
  /\ stderr (world (after_tick os st))
     = stderr (world st) ++ ["[error] GetCursorPos failed"%string]
  /\ stdout (world (after_tick os st)) = stdout (world st).
Proof.
  unfold cursor_fails. intros Hrun Hh Hc.
  destruct (tick_running_streams os st Hrun) as (-> & -> & ->).
  destruct st as [[iv sp h0] [so se tm cl q]]. cbn [self hwnd world calls] in *.
  destruct (GetCursorPos os (POINT_ 0 0)) as [okc pc] eqn:Ec.
  cbn [fst] in Hc. subst okc.
  unfold tick_try. run_with_facts. repeat apply conj; reflexivity.
Qed.

Lemma cursor_failure_stops_sampling_witness :
  calls (world (after_tick os_cursor_denied st_running))
  = calls (world st_running) ++ [CallGetCursorPos]
  /\ stderr (world (after_tick os_cursor_denied st_running))
     = stderr (world st_running) ++ ["[error] GetCursorPos failed"%string]
  /\ stdout (world (after_tick os_cursor_denied st_running))
     = stdout (world st_running).
Proof.
  apply (cursor_failure_stops_sampling os_cursor_denied st_running);
    reflexivity.
Defined.

End Coordinates.

(** ** Reading the line *)

Section Readout.

Lemma format_d_length_5 n : fits_5 n -> String.length (format_d 5 n) = 5%nat.
Proof.
  intros H. unfold format_d. apply rjust_fits. now apply str_Z_length_5.
Qed.

Lemma format_f_length_9 t :
  is_finite t = true -> sign_bit t = false -> scaled_abs 3 t < 100000000 ->
  String.length (format_f 9 3 t) = 9%nat.
Proof.
  intros Hfin Hsign Hlt.
  assert (Hrepr : repr_f 3 t = fixed_point 3 false (scaled_abs 3 t)).
  { unfold repr_f, is_finite in *. rewrite <- Hsign.
    destruct (Prim2SF t); try discriminate; reflexivity. }
  pose proof (scaled_abs_nonneg 3 t) as Hk.
  unfold format_f. apply rjust_fits. rewrite Hrepr. unfold fixed_point, sign_str.
  change (10 ^ Z.of_nat 3) with 1000.
  cbn [String.append]. rewrite length_append. cbn [String.length].
  rewrite fixed_digits_length.
  assert (String.length (str_N (Z.to_N (scaled_abs 3 t / 1000))) <= 5)%nat; [|lia].
  apply str_N_length_le. change (10 ^ N.of_nat 5)%N with 100000%N.
  assert (scaled_abs 3 t / 1000 < 100000)
    by (apply Z.div_lt_upper_bound; lia).
  assert (0 <= scaled_abs 3 t / 1000) by (apply Z.div_pos; lia).
  lia.
Qed.

Lemma format_f_length_9_below t :
  prints_below_100000 t -> String.length (format_f 9 3 t) = 9%nat.
Proof.
  unfold prints_below_100000. destruct (Prim2SF t) as [s|s| |s m e] eqn:E;
    try contradiction.
  - intros _. unfold format_f, repr_f, sign_bit, scaled_abs. rewrite E.
    destruct s; vm_compute; reflexivity.
  - destruct s; [contradiction|]. intros H.
    apply format_f_length_9.
    + unfold is_finite. now rewrite E.
    + unfold sign_bit. now rewrite E.
    + unfold scaled_abs. rewrite E. change (10 ^ Z.of_nat 3) with 1000.
      destruct (0 <=? e) eqn:He; [lia|].
      apply Z.leb_gt in He.
      assert (0 < 2 ^ (- e)) by (apply Z.pow_pos_nonneg; lia).
      apply round_half_even_below; lia.
Qed.

(** X16. The line has a fixed width: when every integer field lies in
    -9999..99999 and the timestamp is a time from 0 that prints below
    100000.000 (a time below 99999.9995 s), the line is exactly 128
    characters long, so the columns of successive samples line up. *)
Theorem format_line_fixed_width (s : Sample) :
  Forall fits_5 (int_fields s) ->
  prints_below_100000 (now s) ->
  String.length (format_line s) = 128%nat.
Proof.
  unfold int_fields, format_line.
  destruct (wrect s) as [[[w0 w1] w2] w3], (crect s) as [[[c0 c1] c2] c3].
  intros Hf Hlt.
  repeat match goal with
         | H : Forall _ (_ :: _) |- _ => inversion H; subst; clear H
         end.
  rewrite !length_append.
  rewrite (format_f_length_9_below _ Hlt).
  rewrite !format_d_length_5 by assumption.
  reflexivity.
Qed.

Lemma format_line_fixed_width_witness :
  String.length (format_line sample_ok) = 128%nat.
Proof.
  apply (format_line_fixed_width sample_ok).
  - repeat constructor; unfold fits_5; cbn; lia.
  - vm_compute. reflexivity.
Defined.

(** The bound is the right one: 99999.9994 prints in nine characters,
    99999.9996 is rounded up to 100000.000 and takes ten. *)
Example prints_below_100000_edge :
  prints_below_100000 99999.9994
  /\ format_f 9 3 99999.9994 = "99999.999"%string
  /\ ~ prints_below_100000 99999.9996
  /\ format_f 9 3 99999.9996 = "100000.000"%string.
Proof.
  repeat apply conj; try (vm_compute; reflexivity).
  vm_compute. intros H. discriminate H.
Qed.

Lemma skip_spaces_replicate k s :
  skip_spaces (replicate k " " +++ s) = skip_spaces s.
Proof. induction k as [|k IH]; [reflexivity | exact IH]. Qed.

Lemma digit_not_space_or_minus c :
  is_digit c = true -> is_space c = false /\ Ascii.eqb c "-" = false.
Proof.
  destruct c as [[] [] [] [] [] [] [] []]; cbn; intros H;
    first [discriminate H | split; reflexivity].
Qed.

Lemma digits_fuel_head f : forall n acc,
  exists c r, digits_fuel f n acc = String c r /\ is_digit c = true.
Proof.
  induction f as [|f IH]; intros n acc; cbn [digits_fuel].
  - eexists; eexists. split; [reflexivity|].
    apply is_digit_digit_char, mod10_lt.
  - destruct (n / 10 =? 0)%N.
    + eexists; eexists. split; [reflexivity|].
      apply is_digit_digit_char, mod10_lt.
    + apply IH.
Qed.

(** X17. What is printed can be read back: for every integer, also one
    too long for its field, skipping the padding of the field and reading
    the sign and the digits gives the integer again. *)
Theorem read_int_format_d (n : Z) : read_int (format_d 5 n) = n.
Proof.
  unfold read_int, format_d, rjust. rewrite skip_spaces_replicate.
  unfold str_Z. destruct (n <? 0) eqn:Hn.
  - apply Z.ltb_lt in Hn. cbn [skip_spaces is_space Ascii.eqb Bool.eqb].
    cbn. rewrite value_str_N. lia.
  - apply Z.ltb_ge in Hn.
    destruct (digits_fuel_head (N.to_nat (N.log2 (Z.abs_N n))) (Z.abs_N n)
                EmptyString) as (c & r & E & Hd).
    pose proof (value_str_N (Z.abs_N n)) as V.
    unfold str_N in *. rewrite E in *.
    destruct (digit_not_space_or_minus c Hd) as [Hsp Hmi].
    cbn [skip_spaces]. rewrite Hsp, Hmi, V. lia.
Qed.

Lemma scale_agrees_all : forallb scale_agrees (seq 1 (Z.to_nat 960)) = true.
Proof. vm_compute. reflexivity. Qed.

(** X18. The scale of the DPI line is right to the last digit: for every
    DPI from 1 to 960 the two decimals printed, computed through the
    floats as [dpi / 96.0], are those of the exact quotient rounded to the
    nearest hundredth (ties to even). *)
Theorem dpi_line_scale_exact (dpi : Z) :
  1 <= dpi <= 960 ->
  dpi_line dpi
  = "Window DPI: " +++ str_Z dpi +++ "  (scale x" +++ scale_exact dpi +++ ")".
Proof.
  intros H. unfold dpi_line.
  change (format_f 0 2 (float_of_Z dpi / 96)) with (scale_shown dpi).
  replace (scale_shown dpi) with (scale_exact dpi); [reflexivity|].
  symmetry. apply String.eqb_eq.
  pose proof scale_agrees_all as A. rewrite forallb_forall in A.
  specialize (A (Z.to_nat dpi)).
  unfold scale_agrees in A. rewrite Z2Nat.id in A by lia.
  apply A. apply in_seq. lia.
Qed.

Lemma dpi_line_scale_exact_witness :
  dpi_line 144
  = "Window DPI: " +++ str_Z 144 +++ "  (scale x" +++ scale_exact 144 +++ ")".
Proof. apply (dpi_line_scale_exact 144). lia. Defined.

End Readout.

(** ** Stopping *)

Section Stopping.

(** X19. [stop] can be asked for any number of times: a second request
    changes nothing, and a request touches neither the streams, the
    pending callbacks, the handle nor the interval. *)
Theorem stop_idempotent (st : State) :
  stop (snd (stop st)) = stop st
  /\ fst (stop st) = Ok tt
  /\ interval (self (snd (stop st))) = interval (self st)
  /\ hwnd (self (snd (stop st))) = hwnd (self st)
  /\ stdout (world (snd (stop st))) = stdout (world st)
  /\ stderr (world (snd (stop st))) = stderr (world st)
  /\ timers (world (snd (stop st))) = timers (world st)
  /\ calls (world (snd (stop st))) = calls (world st).
Proof.
  rewrite !stop_run. cbn [fst snd self world interval hwnd stdout stderr timers calls].
  repeat apply conj; reflexivity.
Qed.

End Stopping.
